(** * svg-term-cli: theme resolution of [src/cli.ts]

    A shallow embedding of the command-line entry point of svg-term-cli
    and of the functions it uses to pick a colour theme: terminal and
    profile detection, flag validation, parser dispatch, and the lookup of
    named presets in the macOS preference containers.

    JavaScript values are embedded as the inductive type [JsVal]; functions
    that read the file system, call a package or throw are computations in
    the monad [M], which threads the mutable part of the world (files,
    standard output, a trace of the external calls made so far) and
    propagates thrown errors.  What Node and the imported packages provide
    is collected in the record [World]. *)

From Stdlib Require Import ZArith List Bool.
From stdpp Require Import base option gmap strings.
Import ListNotations.

Local Set Warnings "-register-all".
Local Open Scope string_scope.
Local Open Scope Z_scope.

(** ** JavaScript values *)

(** A number is kept as its canonical decimal rendering, the string that
    [ToString] yields for it ([-0] renders as [0]).  [JBuiltin k] is the
    member [k] that every plain object inherits from [Object.prototype]. *)
Inductive JsVal : Type :=
| JUndefined
| JNull
| JBool (b : bool)
| JNum (repr : string)
| JStr (s : string)
| JObj (props : list (string * JsVal))
| JBuiltin (name : string).

Definition dquote : string := String (Ascii.ascii_of_nat 34) EmptyString.

Definition is_empty (s : string) : bool :=
  match s with EmptyString => true | String _ _ => false end.

(** [Boolean(v)] *)
Definition truthy (v : JsVal) : bool :=
  match v with
  | JUndefined | JNull => false
  | JBool b => b
  | JNum r => negb (String.eqb r "0" || String.eqb r "NaN")
  | JStr s => negb (is_empty s)
  | JObj _ | JBuiltin _ => true
  end.

(** [a || b] *)
Definition js_or (a b : JsVal) : JsVal := if truthy a then a else b.

(** [String(v)], which is also the property key that [v] converts to. *)
Definition js_toString (v : JsVal) : string :=
  match v with
  | JUndefined => "undefined"
  | JNull => "null"
  | JBool true => "true"
  | JBool false => "false"
  | JNum r => r
  | JStr s => s
  | JObj _ => "[object Object]"
  | JBuiltin k => "function " +:+ k +:+ "() { [native code] }"
  end.

(** [v === s] for a string [s] *)
Definition is_str (v : JsVal) (s : string) : bool :=
  match v with JStr t => String.eqb t s | _ => false end.

(** [v === null] *)
Definition is_null (v : JsVal) : bool :=
  match v with JNull => true | _ => false end.

Definition mem (k : string) (ks : list string) : bool :=
  existsb (String.eqb k) ks.

(** The property names of [Object.prototype], which every plain object
    (object literals, compiled enums, parsed dictionaries) inherits. *)
Definition Object_prototype : list string :=
  [ "constructor"; "__defineGetter__"; "__defineSetter__"; "hasOwnProperty";
    "__lookupGetter__"; "__lookupSetter__"; "isPrototypeOf";
    "propertyIsEnumerable"; "toString"; "valueOf"; "__proto__";
    "toLocaleString" ].

Fixpoint assoc {A} (k : string) (l : list (string * A)) : option A :=
  match l with
  | [] => None
  | (k', a) :: l' => if String.eqb k k' then Some a else assoc k l'
  end.

(** [k in o] for a plain object [o] whose own keys are [own]. *)
Definition js_in (k : JsVal) (own : list string) : bool :=
  mem (js_toString k) (own ++ Object_prototype).

(** [o[k]] for a plain object [o] whose own properties are [props]. *)
Definition get_property (props : list (string * JsVal)) (k : string) : JsVal :=
  match assoc k props with
  | Some v => v
  | None => if mem k Object_prototype then JBuiltin k else JUndefined
  end.

(** [s.charAt(0)] *)
Definition charAt0 (s : string) : string :=
  match s with
  | EmptyString => EmptyString
  | String c _ => String c EmptyString
  end.

(** [l.indexOf(x)] *)
Fixpoint indexOf (l : list string) (x : string) : Z :=
  match l with
  | [] => -1
  | y :: l' =>
      if String.eqb y x then 0
      else let i := indexOf l' x in if i <? 0 then -1 else i + 1
  end.

(** ** Errors, state and the monad of computations *)

(** What a [throw] can carry.  [UsageError] is the error built by
    [cliError]: an [Error] with a [help] method, which [withCli] reports
    together with the usage text.  The others have no [help]. *)
Inductive Error : Type :=
| UsageError (message : string)
| PlainError (message : string)
| TypeError (message : string)
| ENOENT (path : string)
| EISDIR (path : string)
| PackageError (package message : string).

Inductive Res (A : Type) : Type :=
| Ok (a : A)
| Throw (e : Error).
Arguments Ok {A} a.
Arguments Throw {A} e.

(** The parsers exported by the term-schemes package. *)
Inductive Parser : Type :=
| p_iterm2 | p_konsole | p_remmina | p_terminal | p_terminator
| p_termite | p_tilda | p_xfce | p_xresources | p_xterm.

(** Calls that leave the program, in the order they are made.  A test for
    existence is recorded with the path it was given, a read or a write
    with the path it resolved. *)
Inductive Event : Type :=
| EvFetch (url : string)
| EvStdin
| EvExists (path : string)
| EvReadFile (path : string)
| EvBplist
| EvPlistBuild
| EvParse (p : Parser)
| EvRender
| EvWriteFile (path : string)
| EvStdout.

(** What a path of the file system leads to. *)
Inductive Entry : Type :=
| File (data : string)
| Directory.

(** The part of the world the program can change or that records what it
    did: the file system (by resolved path), what was written to standard
    output, and the trace of external calls. *)
Record State : Type := {
  files : gmap string Entry;
  stdout : list string;
  trace : list Event
}.

Definition M (A : Type) : Type := State -> Res A * State.

Definition ret {A} (a : A) : M A := fun s => (Ok a, s).

Definition throw {A} (e : Error) : M A := fun s => (Throw e, s).

Definition bind {A B} (m : M A) (k : A -> M B) : M B :=
  fun s =>
    match m s with
    | (Ok a, s') => k a s'
    | (Throw e, s') => (Throw e, s')
    end.

Notation "x <- m ;; k" := (bind m (fun x => k))
  (at level 100, m at next level, right associativity).
Notation "m ;;; k" := (bind m (fun _ => k))
  (at level 100, right associativity).

Definition lift {A} (r : Res A) : M A := fun s => (r, s).

Definition emit (e : Event) : M unit :=
  fun s => (Ok tt, {| files := files s; stdout := stdout s;
                      trace := trace s ++ [e] |}).

(** ** The world: Node, the imported packages, the process environment *)

Definition Color : Type := (Z * Z * Z)%type.

(** The theme type of the term-schemes package, as the data model of the
    specification describes it: foreground, background and sixteen
    palette entries. *)
Record TermScheme : Type := {
  foreground : Color;
  background : Color;
  ansi : list Color
}.

(** The options object handed to [render] of the svg-term package. *)
Record RenderOptions : Type := {
  opt_height : option Z;
  opt_theme : option TermScheme;
  opt_width : option Z;
  opt_window : bool
}.

(** Everything [cli.ts] imports or reads from its process.  None of it is
    code of this repository, so none of it is fixed here. *)
Record World : Type := {
  (** [os.platform()] *)
  platform : string;
  (** [process.env.TERM_PROGRAM] *)
  TERM_PROGRAM : option string;
  (** [os.homedir()] *)
  homedir : string;
  (** [process.cwd()] *)
  cwd : string;
  (** [getStdin()] *)
  stdin : string;
  (** [fetch(url)] followed by [response.text()] *)
  fetch : string -> Res string;
  (** [path.join(...)] *)
  path_join : list string -> string;
  (** [path.resolve(...)], which file system calls apply to their path *)
  path_resolve : list string -> string;
  (** [parseInt(s, 10)]; [None] is [NaN] *)
  parseInt10 : string -> option Z;
  (** [v[k]] for a receiver [v] that is not a plain object *)
  primitive_get : JsVal -> string -> JsVal;
  (** the own entries of the [TermSchemes] enum object of term-schemes *)
  TermSchemes : list (string * string);
  (** the parsers of term-schemes *)
  parse : Parser -> string -> Res TermScheme;
  (** [bplistParser.parseBuffer(file)] *)
  parseBuffer : string -> Res (list JsVal);
  (** [plist.build(value)] *)
  plist_build : JsVal -> Res string;
  (** [render(input, options)] of svg-term *)
  render : string -> RenderOptions -> Res string
}.

(** The object [meow] returns. *)
Record SvgTermCli : Type := {
  flags : gmap string JsVal;
  help : string;
  input : list string
}.

(** [cli.flags[name]] *)
Definition flag (cli : SvgTermCli) (name : string) : JsVal :=
  default JUndefined (flags cli !! name).

(** [name in cli.flags], for the option names the program asks about
    (none of them is a member of [Object.prototype]) *)
Definition has_flag (cli : SvgTermCli) (name : string) : bool :=
  match flags cli !! name with Some _ => true | None => false end.

Record Guesses : Type := {
  term : JsVal;
  profile : JsVal
}.

(** [guess[n]] *)
Definition guess_get (guess : Guesses) (n : string) : JsVal :=
  get_property [("term", term guess); ("profile", profile guess)] n.

(** The enum [DetectableTerminals] of lines 16-19, as the object the
    compiler emits for it. *)
Definition DetectableTerminals : list (string * string) :=
  [("iterm2", "iterm2"); ("terminal", "terminal")].

Definition keys {A} (o : list (string * A)) : list string := map fst o.

(** [a === b] where one side is an enum member (a string, or [undefined]
    when the enum has no such member) *)
Definition strict_eq (a b : JsVal) : bool :=
  match a, b with
  | JUndefined, JUndefined => true
  | JNull, JNull => true
  | JBool x, JBool y => Bool.eqb x y
  | JNum x, JNum y => String.eqb x y && negb (String.eqb x "NaN")
  | JStr x, JStr y => String.eqb x y
  | _, _ => false
  end.

Definition nl : string := String (Ascii.ascii_of_nat 10) EmptyString.

Definition message (e : Error) : string :=
  match e with
  | UsageError m | PlainError m | TypeError m => m
  | ENOENT p => "ENOENT: no such file or directory, open '" +:+ p +:+ "'"
  | EISDIR p => "EISDIR: illegal operation on a directory, read"
  | PackageError _ m => m
  end.

(** ** The program *)

Section Program.

Variable w : World.

(** *** What the program calls *)

Definition with_trace (s : State) (e : Event) : State :=
  {| files := files s; stdout := stdout s; trace := trace s ++ [e] |}.

(** [fs.existsSync(path)] *)
Definition fs_existsSync (path : string) : M bool :=
  fun s =>
    (Ok (match files s !! path_resolve w [path] with
         | Some _ => true | None => false end),
     with_trace s (EvExists path)).

(** Reading the file that the segments [segs] resolve to:
    [fs.readFileSync(p)] is [read_file [p]],
    [sander.readFileSync(a, b)] is [read_file [a; b]]. *)
Definition read_file (segs : list string) : M string :=
  fun s =>
    let p := path_resolve w segs in
    (match files s !! p with
     | Some (File data) => Ok data
     | Some Directory => Throw (EISDIR p)
     | None => Throw (ENOENT p)
     end, with_trace s (EvReadFile p)).

(** [sander.writeFile(path, data)].  The promise it returns is not
    awaited: when the path is a directory the write is lost. *)
Definition sander_writeFile (path data : string) : M unit :=
  fun s =>
    let p := path_resolve w [path] in
    (Ok tt, {| files := match files s !! p with
                        | Some Directory => files s
                        | _ => <[p := File data]> (files s)
                        end;
               stdout := stdout s;
               trace := trace s ++ [EvWriteFile p] |}).

(** [process.stdout.write(data)] and [console.log(data)] *)
Definition stdout_write (data : string) : M unit :=
  fun s =>
    (Ok tt, {| files := files s; stdout := stdout s ++ [data];
               trace := trace s ++ [EvStdout] |}).

(** A call into a package: it is recorded, and its result or its
    exception is passed on. *)
Definition call {A} (e : Event) (r : Res A) : M A :=
  emit e ;;; lift r.

(** [o[k]] *)
Definition js_get (o k : JsVal) : M JsVal :=
  match o with
  | JUndefined | JNull =>
      throw (TypeError ("Cannot read property '" +:+ js_toString k +:+
                        "' of " +:+ js_toString o))
  | JObj props => ret (get_property props (js_toString k))
  | _ => ret (primitive_get w o (js_toString k))
  end.

(** [TermSchemes.k] *)
Definition scheme (k : string) : JsVal :=
  match assoc k (TermSchemes w) with
  | Some v => JStr v
  | None => JUndefined
  end.

(** *** Lines 131-141 *)

Definition ensure (names : list string) (cli : SvgTermCli)
    (predicate : string -> JsVal -> option Error) : list Error :=
  omap (fun name => predicate name (flag cli name)) names.

Definition cliError (cli : SvgTermCli) (msg : string) : Error :=
  UsageError msg.

(** *** Lines 143-156 *)

Definition getConfig (term : JsVal) : M JsVal :=
  if is_str term "terminal" then
    file <- read_file [homedir w; "Library/Preferences/com.apple.terminal.plist"] ;;
    objects <- call EvBplist (parseBuffer w file) ;;
    ret (nth 0 objects JUndefined)
  else if is_str term "iterm2" then
    file <- read_file [homedir w; "Library/Preferences/com.googlecode.iterm2.plist"] ;;
    objects <- call EvBplist (parseBuffer w file) ;;
    ret (nth 0 objects JUndefined)
  else ret JNull.

(** *** Lines 158-171 *)

Definition getPresets (term : JsVal) : M JsVal :=
  config <- getConfig term ;;
  if is_str term "terminal" then js_get config (JStr "Window Settings")
  else if is_str term "iterm2" then js_get config (JStr "Custom Color Presets")
  else ret JNull.

(** *** Lines 173-194.  The [iterm2] case has no [return]: after reading
    the presets it falls through to [default]. *)

Definition guessProfile (term : JsVal) : M JsVal :=
  if negb (String.eqb (platform w) "darwin") then ret JNull
  else
    config <- getConfig term ;;
    if negb (truthy config) then ret JNull
    else if is_str term "terminal" then
      js_get config (JStr "Default Window Settings")
    else if is_str term "iterm2" then
      presets <- js_get config (JStr "Custom Color Presets") ;;
      ret JNull
    else ret JNull.

(** *** Lines 196-209.  The bare [return] yields [undefined]. *)

Definition guessTerminal : M JsVal :=
  if negb (String.eqb (platform w) "darwin") then ret JUndefined
  else
    match TERM_PROGRAM w with
    | Some program =>
        if String.eqb program "iTerm.app" then ret (JStr "iterm2")
        else if String.eqb program "Apple_Terminal" then ret (JStr "terminal")
        else ret JNull
    | None => ret JNull
    end.

(** *** Lines 211-218 *)

Definition getInput (cli : SvgTermCli) : M string :=
  if truthy (flag cli "cast") then
    let url := "https://asciinema.org/a/" +:+ js_toString (flag cli "cast")
               +:+ ".cast?dl=true" in
    call (EvFetch url) (fetch w url)
  else call EvStdin (Ok (stdin w)).

(** *** Lines 220-245 *)

Definition getParser (term : JsVal) : M Parser :=
  if strict_eq term (scheme "iterm2") then ret p_iterm2
  else if strict_eq term (scheme "konsole") then ret p_konsole
  else if strict_eq term (scheme "remmina") then ret p_remmina
  else if strict_eq term (scheme "terminal") then ret p_terminal
  else if strict_eq term (scheme "terminator") then ret p_terminator
  else if strict_eq term (scheme "termite") then ret p_termite
  else if strict_eq term (scheme "tilda") then ret p_tilda
  else if strict_eq term (scheme "xcfe") then ret p_xfce
  else if strict_eq term (scheme "xresources") then ret p_xresources
  else if strict_eq term (scheme "xterm") then ret p_xterm
  else throw (PlainError ("unknown term parser: " +:+ js_toString term)).

(** Applying a parser to the text of a theme. *)
Definition run_parser (p : Parser) (raw : string) : M TermScheme :=
  call (EvParse p) (parse w p raw).

(** *** Lines 260-263 *)

Definition parseTheme (term : JsVal) (input : string) : M TermScheme :=
  parser <- getParser term ;;
  data <- read_file [input] ;;
  run_parser parser data.

(** *** Lines 265-291 *)

Definition extractTheme (term name : JsVal) : M (option TermScheme) :=
  if negb (js_in term (keys DetectableTerminals)) then ret None
  else if negb (String.eqb (platform w) "darwin") then ret None
  else
    presets <- getPresets term ;;
    theme <- js_get presets name ;;
    parser <- getParser term ;;
    if negb (truthy theme) then ret None
    else if is_str term "iterm2" then
      xml <- call EvPlistBuild (plist_build w theme) ;;
      t <- run_parser parser xml ;;
      ret (Some t)
    else if is_str term "terminal" then
      xml <- call EvPlistBuild (plist_build w theme) ;;
      t <- run_parser parser xml ;;
      ret (Some t)
    else ret None.

(** [(guess.profile || '').charAt(0)] is one of [~], [/], [.].  Only a
    string has a [charAt]; on any other value the call throws. *)
Definition isFileProfile (profile : JsVal) : M bool :=
  match js_or profile (JStr EmptyString) with
  | JStr p => ret (-1 <? indexOf ["~"; "/"; "."] (charAt0 p))
  | _ => throw (TypeError "p.charAt is not a function")
  end.

(** *** Lines 247-258.  In the file branch [guess.profile] is the string
    whose first character was tested. *)

Definition getTheme (guess : Guesses) : M (option TermScheme) :=
  if is_null (term guess) || is_null (profile guess) then ret None
  else
    file <- isFileProfile (profile guess) ;;
    if file then
      t <- parseTheme (term guess) (js_toString (profile guess)) ;;
      ret (Some t)
    else extractTheme (term guess) (profile guess).

(** *** Lines 293-302 *)

Definition toNumber (input : JsVal) : option Z :=
  if negb (truthy input) then None
  else parseInt10 w (js_toString input).

(** *** Lines 54-129: [main], in the order of its statements *)

(** Lines 62-74: [--height] and [--width] must parse as numbers. *)
Definition malformed (cli : SvgTermCli) : list Error :=
  ensure ["height"; "width"] cli (fun name val =>
    if negb (has_flag cli name) then None
    else match parseInt10 w (js_toString val) with
         | Some _ => None
         | None => Some (TypeError (name +:+ " expected to be number, received "
                                    +:+ dquote +:+ js_toString val +:+ dquote))
         end).

(** Lines 76-82: detection comes first, the flags fill what it leaves. *)
Definition guesses (cli : SvgTermCli) : M Guesses :=
  detected <- guessTerminal ;;
  let term := js_or detected (flag cli "term") in
  profile <- (if truthy term
              then (guessed <- guessProfile term ;;
                    ret (js_or guessed (flag cli "profile")))
              else ret (flag cli "profile")) ;;
  ret {| term := term; profile := profile |}.

(** Lines 84-90 *)
Definition unsatisfied (guess : Guesses) : list string :=
  List.filter (fun n => negb (truthy (guess_get guess n))) ["term"; "profile"].

(** Lines 92-99 *)
Definition unknown (cli : SvgTermCli) : list Error :=
  ensure ["term"] cli (fun name val =>
    if negb (has_flag cli name) then None
    else if negb (js_in (flag cli "term") (keys (TermSchemes w))) then
      Some (TypeError (name +:+ " expected to be one of "
                       +:+ String.concat ", " (keys (TermSchemes w))
                       +:+ ", received " +:+ dquote +:+ js_toString val +:+ dquote))
    else None).

(** [path.join(process.cwd(), cli.flags.profile)]: [path.join] accepts
    strings only. *)
Definition join_cwd (v : JsVal) : M string :=
  match v with
  | JStr f => ret (path_join w [cwd w; f])
  | _ => throw (TypeError "Path must be a string")
  end.

(** Lines 84-113: everything [main] checks between guessing and
    resolving the theme. *)
Definition validate (cli : SvgTermCli) (guess : Guesses) : M unit :=
  let error := cliError cli in
  (if has_flag cli "term" || has_flag cli "profile" then
     let missing := unsatisfied guess in
     if (0 <? Z.of_nat (length missing)) then
       throw (error ("svg-term: --term and --profile must be used together, "
                     +:+ String.concat ", " missing +:+ " missing"))
     else ret tt
   else ret tt) ;;;
  (if 0 <? Z.of_nat (length (unknown cli)) then
     throw (error ("svg-term: " +:+ String.concat nl (map message (unknown cli))))
   else ret tt) ;;;
  file <- isFileProfile (profile guess) ;;
  if file && has_flag cli "profile" then
    candidate <- join_cwd (flag cli "profile") ;;
    found <- fs_existsSync candidate ;;
    if negb found then
      throw (error ("svg-term: " +:+ js_toString (flag cli "profile")
                    +:+ " must be readable file but was not found"))
    else ret tt
  else ret tt.

(** Lines 117-128.  A path for [--out] has to be a string. *)
Definition output (cli : SvgTermCli) (svg : string) : M unit :=
  if has_flag cli "out" then
    match flag cli "out" with
    | JStr out => sander_writeFile out svg
    | _ => throw (TypeError "Path must be a string")
    end
  else stdout_write svg.

Definition main (cli : SvgTermCli) : M unit :=
  input <- getInput cli ;;
  let error := cliError cli in
  if is_empty input then
    throw (error "svg-term: either stdin or --cast are required")
  else if 0 <? Z.of_nat (length (malformed cli)) then
    throw (error ("svg-term: " +:+ String.concat nl (map message (malformed cli))))
  else
    guess <- guesses cli ;;
    validate cli guess ;;;
    theme <- getTheme guess ;;
    svg <- call EvRender
             (render w input {| opt_height := toNumber (flag cli "height");
                                opt_theme := theme;
                                opt_width := toNumber (flag cli "width");
                                opt_window := truthy (flag cli "frame") |}) ;;
    output cli svg.

(** *** Lines 304-316: how the process ends *)

Inductive Exit : Type :=
| Completed
| Exited (code : Z)
| Uncaught (e : Error).

Definition withCli (cli : SvgTermCli) (s : State) : Exit * State :=
  match main cli s with
  | (Ok _, s') => (Completed, s')
  | (Throw (UsageError msg), s') =>
      match (stdout_write (help cli) ;;; stdout_write (nl +:+ " " +:+ msg)) s' with
      | (_, s'') => (Exited 1, s'')
      end
  | (Throw e, s') => (Uncaught e, s')
  end.

End Program.

(** ** A POSIX host, for concrete runs *)

(** [path.posix]: segments are split at [/]; [.] and empty segments are
    dropped and [..] removes the segment before it. *)
Fixpoint split_slash (acc : string) (s : string) : list string :=
  match s with
  | EmptyString => [String.rev acc]
  | String c rest =>
      if Ascii.eqb c (Ascii.ascii_of_nat 47)
      then String.rev acc :: split_slash EmptyString rest
      else split_slash (String c acc) rest
  end.

Fixpoint normalize_segments (above_root : bool) (stack : list string)
    (segs : list string) : list string :=
  match segs with
  | [] => rev stack
  | seg :: rest =>
      if is_empty seg || String.eqb seg "." then
        normalize_segments above_root stack rest
      else if String.eqb seg ".." then
        match stack with
        | top :: below =>
            if String.eqb top ".."
            then normalize_segments above_root (seg :: stack) rest
            else normalize_segments above_root below rest
        | [] =>
            if above_root
            then normalize_segments above_root [seg] rest
            else normalize_segments above_root [] rest
        end
      else normalize_segments above_root (seg :: stack) rest
  end.

Definition is_absolute (p : string) : bool := String.eqb (charAt0 p) "/".

Definition ends_with_slash (p : string) : bool :=
  String.eqb (charAt0 (String.rev p)) "/".

(** [path.posix.normalize(p)] *)
Definition posix_normalize (p : string) : string :=
  if is_empty p then "."
  else
    let body := String.concat "/"
                  (normalize_segments (negb (is_absolute p)) []
                                      (split_slash EmptyString p)) in
    let body := if is_empty body && negb (is_absolute p) then "." else body in
    let body := if negb (is_empty body) && ends_with_slash p
                then body +:+ "/" else body in
    if is_absolute p then "/" +:+ body else body.

(** [path.posix.join(...segs)] *)
Definition posix_join (segs : list string) : string :=
  match List.filter (fun x => negb (is_empty x)) segs with
  | [] => "."
  | parts => posix_normalize (String.concat "/" parts)
  end.

(** The segments from the last absolute one on. *)
Fixpoint from_last_absolute (kept : list string) (segs : list string) : list string :=
  match segs with
  | [] => kept
  | seg :: rest =>
      if is_absolute seg then from_last_absolute (seg :: rest) rest
      else from_last_absolute kept rest
  end.

(** [path.posix.resolve(...segs)] in the working directory [cwd] *)
Definition posix_resolve (cwd : string) (segs : list string) : string :=
  let all := cwd :: segs in
  "/" +:+ String.concat "/"
    (normalize_segments false []
       (split_slash EmptyString
          (String.concat "/" (from_last_absolute all all)))).

(** [parseInt(s, 10)] on an optional sign followed by decimal digits:
    the digits read so far, until the first other character. *)
Fixpoint leading_digits (acc : option Z) (s : string) : option Z :=
  match s with
  | EmptyString => acc
  | String c rest =>
      let n := Z.of_nat (Ascii.nat_of_ascii c) in
      if (48 <=? n) && (n <=? 57)
      then leading_digits (Some (10 * default 0 acc + (n - 48))) rest
      else acc
  end.

Definition posix_parseInt10 (s : string) : option Z :=
  match s with
  | String c rest =>
      if Ascii.eqb c (Ascii.ascii_of_nat 45)
      then Z.opp <$> leading_digits None rest
      else if Ascii.eqb c (Ascii.ascii_of_nat 43)
      then leading_digits None rest
      else leading_digits None s
  | EmptyString => None
  end.

Definition sample_scheme : TermScheme :=
  {| foreground := (187, 187, 187);
     background := (0, 0, 0);
     ansi := repeat (0, 0, 0) 16 |}.

(** An enum whose ten members name themselves. *)
Definition sample_TermSchemes : list (string * string) :=
  map (fun k => (k, k))
      ["iterm2"; "konsole"; "remmina"; "terminal"; "terminator"; "termite";
       "tilda"; "xcfe"; "xresources"; "xterm"].

Definition terminal_plist : string :=
  "/Users/me/Library/Preferences/com.apple.terminal.plist".
Definition iterm2_plist : string :=
  "/Users/me/Library/Preferences/com.googlecode.iterm2.plist".

Definition a_theme : JsVal := JObj [("name", JStr "a theme")].

(** The dictionary stored in Terminal's container. *)
Definition terminal_config : JsVal :=
  JObj [("Default Window Settings", JStr "Pro");
        ("Window Settings", JObj [("Basic", a_theme); ("Pro", a_theme)])].

(** The dictionary stored in iTerm2's container. *)
Definition iterm2_config : JsVal :=
  JObj [("Custom Color Presets", JObj [("Solarized", a_theme)])].

(** A host with POSIX paths.  Its containers hold the text
    [terminal] or [iterm2], standing for the two dictionaries above. *)
Definition host (os : string) (term_program : option string) : World :=
  {| platform := os;
     TERM_PROGRAM := term_program;
     homedir := "/Users/me";
     cwd := "/Users/me/casts";
     stdin := "[0.1, o, hello]";
     fetch := fun _ => Throw (PackageError "node-fetch" "network unreachable");
     path_join := posix_join;
     path_resolve := posix_resolve "/Users/me/casts";
     parseInt10 := posix_parseInt10;
     primitive_get := fun _ _ => JUndefined;
     TermSchemes := sample_TermSchemes;
     parse := fun _ raw =>
       if is_empty raw then Throw (PackageError "term-schemes" "no colors")
       else Ok sample_scheme;
     parseBuffer := fun data =>
       if String.eqb data "terminal" then Ok [terminal_config]
       else if String.eqb data "iterm2" then Ok [iterm2_config]
       else Throw (PackageError "bplist-parser" "Invalid binary plist");
     plist_build := fun v =>
       match v with
       | JObj _ => Ok "<plist><dict/></plist>"
       | _ => Ok "<plist/>"
       end;
     render := fun _ _ => Ok "<svg/>" |}.

Definition linux : World := host "linux" (Some "xterm").
Definition mac_terminal : World := host "darwin" (Some "Apple_Terminal").
Definition mac_iterm2 : World := host "darwin" (Some "iTerm.app").
Definition mac_other : World := host "darwin" None.

(** A state whose files are [fs], before anything was called. *)
Definition boot (fs : gmap string Entry) : State :=
  {| files := fs; stdout := []; trace := [] |}.

Definition mac_files : gmap string Entry :=
  {[ terminal_plist := File "terminal"; iterm2_plist := File "iterm2";
     "/Users/me/casts" := Directory; "/Users/me/casts/themes" := Directory ]}.

Definition argv (fl : list (string * JsVal)) : SvgTermCli :=
  {| flags := list_to_map fl; help := "Usage: svg-term [options]"; input := [] |}.

(** ** Notions used in the statements, and sample runs *)

(** On darwin the table of lines 201-208 decides. *)
Definition detected_terminal (w : World) : JsVal :=
  match TERM_PROGRAM w with
  | Some program =>
      if String.eqb program "iTerm.app" then JStr "iterm2"
      else if String.eqb program "Apple_Terminal" then JStr "terminal"
      else JNull
  | None => JNull
  end.

(** The members of [TermSchemes] that the [case] labels of [getParser]
    name, in their order. *)
Definition scheme_members : list string :=
  ["iterm2"; "konsole"; "remmina"; "terminal"; "terminator"; "termite";
   "tilda"; "xcfe"; "xresources"; "xterm"].

(** [term] is the value of one of these members. *)
Definition is_scheme (w : World) (term : JsVal) : bool :=
  existsb (strict_eq term) (map (scheme w) scheme_members).

(** A computation is read-only when it leaves the files as they are and
    its result depends on the state through the files alone: not on what
    was printed or called before. *)
Definition ReadOnly {A} (m : M A) : Prop :=
  (forall s, files (snd (m s)) = files s) /\
  (forall s s', files s = files s' -> fst (m s) = fst (m s')).

Definition basic_flags : SvgTermCli :=
  argv [("term", JStr "terminal"); ("profile", JStr "Basic")].
Definition basic_guess : Guesses :=
  {| term := JStr "terminal"; profile := JStr "Basic" |}.
Definition after_a_run : State :=
  {| files := mac_files; stdout := ["<svg/>"]; trace := [EvRender] |}.

(** [TERM_PROGRAM] names one of the two terminals of lines 201-205. *)
Definition names_terminal (w : World) (kind : string) : Prop :=
  (TERM_PROGRAM w = Some "iTerm.app" /\ kind = "iterm2") \/
  (TERM_PROGRAM w = Some "Apple_Terminal" /\ kind = "terminal").

Definition xterm_flags : SvgTermCli :=
  argv [("term", JStr "xterm"); ("profile", JStr "./theme.Xresources")].

(** No terminal is detected: the platform is not darwin, or
    [TERM_PROGRAM] is neither of the two names. *)
Definition detects_nothing (w : World) : Prop :=
  platform w <> "darwin" \/
  (TERM_PROGRAM w <> Some "iTerm.app" /\ TERM_PROGRAM w <> Some "Apple_Terminal").

(** The first character of [f] is [~], [/] or [.]. *)
Definition looks_like_path (f : string) : bool :=
  mem (charAt0 f) ["~"; "/"; "."].

Definition theme_file : string := "/Users/me/casts/theme.Xresources".

Definition themed_files : gmap string Entry :=
  <[theme_file := File "*.foreground: #bbbbbb"]> mac_files.

Definition only_xterm : SvgTermCli := argv [("term", JStr "xterm")].
Definition only_iterm2 : SvgTermCli := argv [("term", JStr "iterm2")].

(** [main] read the recording. *)
Definition read_stdin (fs : gmap string Entry) : State :=
  {| files := fs; stdout := []; trace := [EvStdin] |}.

(** [main] read the recording and looked into the container of iTerm2. *)
Definition looked_for_default (fs : gmap string Entry) : State :=
  {| files := fs; stdout := [];
     trace := [EvStdin; EvReadFile iterm2_plist; EvBplist] |}.

Definition not_found (f : string) : Error :=
  UsageError ("svg-term: " +:+ f +:+ " must be readable file but was not found").

(** [main] stopped after the check of lines 108-113. *)
Definition stopped_at_check (fs : gmap string Entry) (path : string) : State :=
  {| files := fs; stdout := []; trace := [EvStdin; EvExists path] |}.

Definition absolute_flags : SvgTermCli :=
  argv [("term", JStr "xterm"); ("profile", JStr "/etc/theme.Xresources")].

Definition etc_files : gmap string Entry :=
  {[ "/etc/theme.Xresources" := File "*.foreground: #bbbbbb";
     "/Users/me/casts" := Directory ]}.

Definition directory_flags : SvgTermCli :=
  argv [("term", JStr "xterm"); ("profile", JStr "./themes")].

Definition home_flags : SvgTermCli :=
  argv [("term", JStr "xterm"); ("profile", JStr "~/theme.Xresources")].

Definition constructor_flags : SvgTermCli :=
  argv [("profile", JStr "constructor")].

(** ** Notions used in the further properties *)


(** The key under which each container keeps its presets (lines 163 and
    166). *)
Definition presets_key (kind : string) : string :=
  if String.eqb kind "terminal" then "Window Settings"
  else "Custom Color Presets".

(** A computation is quiet when it leaves the files and the standard
    output as they are. *)
Definition Quiet {A} (m : M A) : Prop :=
  forall s, files (snd (m s)) = files s /\ stdout (snd (m s)) = stdout s.

Definition no_flags : SvgTermCli := argv [].

(** The error that lines 66-69 make for a flag that is no number. *)
Definition not_a_number (name : string) (val : JsVal) : Error :=
  TypeError (name +:+ " expected to be number, received "
             +:+ dquote +:+ js_toString val +:+ dquote).


(** The message of lines 96-98 for a term that is no key of the enum. *)
Definition unknown_term (w : World) (val : JsVal) : string :=
  "term expected to be one of " +:+ String.concat ", " (keys (TermSchemes w))
  +:+ ", received " +:+ dquote +:+ js_toString val +:+ dquote.

(** The world [w] with another standard input and another answer of the
    download. *)
Definition with_recording (w : World) (text : string)
    (download : string -> Res string) : World :=
  {| platform := platform w;
     TERM_PROGRAM := TERM_PROGRAM w;
     homedir := homedir w;
     cwd := cwd w;
     stdin := text;
     fetch := download;
     path_join := path_join w;
     path_resolve := path_resolve w;
     parseInt10 := parseInt10 w;
     primitive_get := primitive_get w;
     TermSchemes := TermSchemes w;
     parse := parse w;
     parseBuffer := parseBuffer w;
     plist_build := plist_build w;
     render := render w |}.

Definition nothing_piped : World :=
  with_recording linux EmptyString (fetch linux).


Definition size_flags : SvgTermCli :=
  argv [("width", JStr "wide"); ("height", JNum "24")].

(** What a run of [main] with the result [r] may have changed between
    the state [s] it started in and the state [s'] it ended in: nothing
    when it failed; when it succeeded, either the file of [--out] or the
    standard output, by one item. *)
Definition run_effect (w : World) (cli : SvgTermCli) (s : State)
    (r : Res unit) (s' : State) : Prop :=
  match r with
  | Throw _ => files s' = files s /\ stdout s' = stdout s
  | Ok _ =>
      if has_flag cli "out"
      then stdout s' = stdout s /\
           exists out svg,
             flag cli "out" = JStr out /\
             files s' = match files s !! path_resolve w [out] with
                        | Some Directory => files s
                        | _ => <[path_resolve w [out] := File svg]> (files s)
                        end
      else files s' = files s /\ exists svg, stdout s' = (stdout s ++ [svg])%list
  end.


(** * Properties *)

(** ** Running computations *)

Lemma bind_ok {A B} (m : M A) (k : A -> M B) s a s' :
  m s = (Ok a, s') -> bind m k s = k a s'.
Proof. intros H. unfold bind. now rewrite H. Qed.

Lemma bind_throw {A B} (m : M A) (k : A -> M B) s e s' :
  m s = (Throw e, s') -> bind m k s = (Throw e, s').
Proof. intros H. unfold bind. now rewrite H. Qed.

Lemma bind_ret {A B} (a : A) (k : A -> M B) s : bind (ret a) k s = k a s.
Proof. reflexivity. Qed.

(** Runs the first computation of a sequence by its equation [H]. *)
Ltac run H :=
  first [ rewrite (bind_ok _ _ _ _ _ H) | rewrite (bind_throw _ _ _ _ _ H) ];
  cbv beta.

(** Reading a property of a truthy value does not throw. *)
Lemma js_get_truthy w o k s :
  truthy o = true -> exists v, js_get w o k s = (Ok v, s).
Proof.
  destruct o; simpl; intros H; try discriminate; eexists; reflexivity.
Qed.

(** Off darwin [guessTerminal] takes the bare [return]. *)
Lemma guessTerminal_elsewhere (w : World) (s : State) :
  platform w <> "darwin" -> guessTerminal w s = (Ok JUndefined, s).
Proof.
  intros H. unfold guessTerminal.
  apply String.eqb_neq in H. now rewrite H.
Qed.

(** ** Terminal detection *)

(** C4. On a platform other than darwin, [guessTerminal] returns without
    raising, in an unchanged state, whatever [TERM_PROGRAM] holds; what it
    returns is [undefined], the value of a bare [return]. *)
Theorem guessTerminal_off_darwin (w : World) (s : State) :
  platform w <> "darwin" ->
  guessTerminal w s = (Ok JUndefined, s).
Proof.
  intros H. unfold guessTerminal.
  apply String.eqb_neq in H. now rewrite H.
Qed.

Lemma guessTerminal_off_darwin_witness :
  platform linux <> "darwin" /\
  guessTerminal linux (boot mac_files) = (Ok JUndefined, boot mac_files).
Proof.
  split; [simpl; discriminate|].
  apply (guessTerminal_off_darwin linux). simpl. discriminate.
Defined.

Lemma guessTerminal_darwin (w : World) (s : State) :
  platform w = "darwin" ->
  guessTerminal w s = (Ok (detected_terminal w), s).
Proof.
  intros H. unfold guessTerminal, detected_terminal. rewrite H. simpl.
  destruct (TERM_PROGRAM w) as [tp|]; [|reflexivity].
  destruct (String.eqb tp "iTerm.app"); [reflexivity|].
  destruct (String.eqb tp "Apple_Terminal"); reflexivity.
Qed.

(** ** Default profile detection *)

(** C3. For [iterm2], whatever dictionary the container holds,
    [guessProfile] returns [null]: on darwin it reads the container and
    the presets in it and then falls through to [default]; elsewhere it
    returns before reading anything. *)
Theorem guessProfile_iterm2_null (w : World) (s s' : State) (config : JsVal) :
  getConfig w (JStr "iterm2") s = (Ok config, s') ->
  guessProfile w (JStr "iterm2") s =
    (Ok JNull, if String.eqb (platform w) "darwin" then s' else s).
Proof.
  intros Hc. unfold guessProfile.
  destruct (String.eqb (platform w) "darwin"); simpl; [|reflexivity].
  rewrite (bind_ok _ _ _ _ _ Hc).
  destruct (truthy config) eqn:Ht; simpl; [|reflexivity].
  destruct (js_get_truthy w config (JStr "Custom Color Presets") s' Ht) as [v Hv].
  now rewrite (bind_ok _ _ _ _ _ Hv).
Qed.

Lemma guessProfile_iterm2_null_witness :
  exists s',
    getConfig mac_iterm2 (JStr "iterm2") (boot mac_files) = (Ok iterm2_config, s') /\
    guessProfile mac_iterm2 (JStr "iterm2") (boot mac_files) = (Ok JNull, s').
Proof.
  eexists. split; [reflexivity|].
  apply (guessProfile_iterm2_null mac_iterm2 (boot mac_files) _ iterm2_config).
  reflexivity.
Defined.

(** ** Parser dispatch *)

(** C5. [getParser] returns a parser exactly for the values of the ten
    enum members; for every other value it throws the error
    [unknown term parser: ...] and returns none. *)
Theorem getParser_closed_set (w : World) (term : JsVal) (s : State) :
  (is_scheme w term = true -> exists p, getParser w term s = (Ok p, s)) /\
  (is_scheme w term = false ->
   getParser w term s =
     (Throw (PlainError ("unknown term parser: " +:+ js_toString term)), s)).
Proof.
  unfold is_scheme, getParser, scheme_members. simpl.
  repeat match goal with
         | |- context [strict_eq term ?m] =>
             destruct (strict_eq term m);
             [split; [intros _; eexists; reflexivity | discriminate]|]
         end.
  simpl. split; [discriminate | reflexivity].
Qed.

Lemma getParser_closed_set_witness :
  (exists p, getParser linux (JStr "termite") (boot ∅) = (Ok p, boot ∅)) /\
  getParser linux (JStr "zsh") (boot ∅) =
    (Throw (PlainError "unknown term parser: zsh"), boot ∅).
Proof.
  split.
  - apply (proj1 (getParser_closed_set linux (JStr "termite") (boot ∅))).
    reflexivity.
  - apply (proj2 (getParser_closed_set linux (JStr "zsh") (boot ∅))).
    reflexivity.
Defined.

(** With an enum whose members name themselves, each name gets the parser
    of its [case]; [xcfe] gets the xfce parser. *)
Example getParser_sample :
  map (fun k => fst (getParser linux (JStr k) (boot ∅))) scheme_members =
  map Ok [p_iterm2; p_konsole; p_remmina; p_terminal; p_terminator;
          p_termite; p_tilda; p_xfce; p_xresources; p_xterm].
Proof. reflexivity. Qed.

(** ** Resolution reads, and never writes *)

Lemma ReadOnly_ret {A} (a : A) : ReadOnly (ret a).
Proof. split; intros; reflexivity. Qed.

Lemma ReadOnly_throw {A} (e : Error) : ReadOnly (@throw A e).
Proof. split; intros; reflexivity. Qed.

Lemma ReadOnly_lift {A} (r : Res A) : ReadOnly (lift r).
Proof. split; intros; reflexivity. Qed.

Lemma ReadOnly_emit (e : Event) : ReadOnly (emit e).
Proof. split; intros; reflexivity. Qed.

Lemma ReadOnly_bind {A B} (m : M A) (k : A -> M B) :
  ReadOnly m -> (forall a, ReadOnly (k a)) -> ReadOnly (bind m k).
Proof.
  intros [Hf Hr] Hk. split.
  - intros s. unfold bind. specialize (Hf s).
    destruct (m s) as [[a|e] s1]; simpl in *; [|assumption].
    rewrite (proj1 (Hk a) s1). assumption.
  - intros s s' Hs. unfold bind.
    pose proof (Hf s) as H1. pose proof (Hf s') as H2.
    specialize (Hr s s' Hs).
    destruct (m s) as [r1 s1], (m s') as [r2 s2]; simpl in *. subst r2.
    destruct r1 as [a|e]; [|reflexivity].
    apply (proj2 (Hk a)). congruence.
Qed.

Lemma ReadOnly_if {A} (b : bool) (m1 m2 : M A) :
  ReadOnly m1 -> ReadOnly m2 -> ReadOnly (if b then m1 else m2).
Proof. destruct b; auto. Qed.

Lemma ReadOnly_call {A} (e : Event) (r : Res A) : ReadOnly (call e r).
Proof.
  apply ReadOnly_bind; [apply ReadOnly_emit | intros; apply ReadOnly_lift].
Qed.

Lemma ReadOnly_fs_existsSync w path : ReadOnly (fs_existsSync w path).
Proof.
  split; [reflexivity|]. intros s s' H. unfold fs_existsSync. simpl.
  now rewrite H.
Qed.

Lemma ReadOnly_read_file w segs : ReadOnly (read_file w segs).
Proof.
  split; [reflexivity|]. intros s s' H. unfold read_file. simpl.
  now rewrite H.
Qed.

Lemma ReadOnly_js_get w o k : ReadOnly (js_get w o k).
Proof.
  destruct o; simpl; first [apply ReadOnly_ret | apply ReadOnly_throw].
Qed.

Create HintDb readonly.
#[local] Hint Resolve ReadOnly_ret ReadOnly_throw ReadOnly_lift ReadOnly_emit
  ReadOnly_call ReadOnly_fs_existsSync ReadOnly_read_file ReadOnly_js_get
  : readonly.

(** Walks a computation: binds, conditionals, and the leaves above. *)
Ltac read_only :=
  repeat first
    [ progress auto with readonly
    | apply ReadOnly_bind; [|intros]
    | apply ReadOnly_if
    | match goal with
      | |- ReadOnly (match ?x with _ => _ end) => destruct x
      end ].

Lemma ReadOnly_getConfig w term : ReadOnly (getConfig w term).
Proof. unfold getConfig. read_only. Qed.

Lemma ReadOnly_getPresets w term : ReadOnly (getPresets w term).
Proof. unfold getPresets. pose proof (ReadOnly_getConfig w term). read_only. Qed.

Lemma ReadOnly_guessProfile w term : ReadOnly (guessProfile w term).
Proof. unfold guessProfile. pose proof (ReadOnly_getConfig w term). read_only. Qed.

Lemma ReadOnly_guessTerminal w : ReadOnly (guessTerminal w).
Proof. unfold guessTerminal. read_only. Qed.

Lemma ReadOnly_getParser w term : ReadOnly (getParser w term).
Proof. unfold getParser. read_only. Qed.

Lemma ReadOnly_parseTheme w term input : ReadOnly (parseTheme w term input).
Proof.
  unfold parseTheme, run_parser. pose proof (ReadOnly_getParser w term).
  read_only.
Qed.

Lemma ReadOnly_extractTheme w term name : ReadOnly (extractTheme w term name).
Proof.
  unfold extractTheme, run_parser.
  pose proof (ReadOnly_getPresets w term).
  pose proof (ReadOnly_getParser w term).
  read_only.
Qed.

Lemma ReadOnly_isFileProfile profile : ReadOnly (isFileProfile profile).
Proof. unfold isFileProfile. read_only. Qed.

Lemma ReadOnly_getTheme w guess : ReadOnly (getTheme w guess).
Proof.
  unfold getTheme.
  pose proof (ReadOnly_isFileProfile (profile guess)).
  pose proof (ReadOnly_extractTheme w (term guess) (profile guess)).
  pose proof (ReadOnly_parseTheme w (term guess) (js_toString (profile guess))).
  read_only.
Qed.

Lemma ReadOnly_guesses w cli : ReadOnly (guesses w cli).
Proof.
  unfold guesses. pose proof (ReadOnly_guessTerminal w).
  pose proof (fun t => ReadOnly_guessProfile w t).
  read_only.
Qed.

(** C8. The guessed pair and the theme resolved from a pair are functions
    of the world and the files alone: two evaluations over the same files
    return the same result, whatever was called or printed in between,
    and an evaluation leaves the files as it found them, so that a second
    evaluation right after the first returns what the first returned. *)
Theorem resolution_deterministic (w : World) (cli : SvgTermCli)
    (guess : Guesses) (s s' : State) :
  files s = files s' ->
  fst (guesses w cli s) = fst (guesses w cli s') /\
  fst (getTheme w guess s) = fst (getTheme w guess s') /\
  fst (guesses w cli (snd (guesses w cli s))) = fst (guesses w cli s) /\
  fst (getTheme w guess (snd (getTheme w guess s))) = fst (getTheme w guess s).
Proof.
  intros H.
  destruct (ReadOnly_guesses w cli) as [Gf Gr].
  destruct (ReadOnly_getTheme w guess) as [Tf Tr].
  repeat split; auto.
Qed.

Lemma resolution_deterministic_witness :
  files (boot mac_files) = files after_a_run /\
  fst (guesses mac_other basic_flags (boot mac_files))
    = fst (guesses mac_other basic_flags after_a_run) /\
  fst (getTheme mac_other basic_guess (boot mac_files))
    = fst (getTheme mac_other basic_guess after_a_run) /\
  fst (guesses mac_other basic_flags
         (snd (guesses mac_other basic_flags (boot mac_files))))
    = fst (guesses mac_other basic_flags (boot mac_files)) /\
  fst (getTheme mac_other basic_guess
         (snd (getTheme mac_other basic_guess (boot mac_files))))
    = fst (getTheme mac_other basic_guess (boot mac_files)).
Proof.
  split; [reflexivity|].
  apply (resolution_deterministic mac_other basic_flags basic_guess
           (boot mac_files) after_a_run).
  reflexivity.
Defined.

(** [main] is not read-only: with [--out] it writes the file it names. *)
Example main_writes :
  files (snd (main linux (argv [("out", JStr "demo.svg")]) (boot ∅)))
    !! "/Users/me/casts/demo.svg" = Some (File "<svg/>").
Proof. reflexivity. Qed.

(** ** The guessed pair *)

(** C9. On darwin with a recognised [TERM_PROGRAM], the term of the
    guessed pair is the detected terminal whatever [--term] says, and when
    a default profile is found for it the profile of the pair is that
    default whatever [--profile] says; [--profile] is used only when no
    default is found. *)
Theorem detection_precedes_flags (w : World) (cli : SvgTermCli)
    (s s' : State) (kind : string) (found : JsVal) :
  platform w = "darwin" ->
  names_terminal w kind ->
  guessProfile w (JStr kind) s = (Ok found, s') ->
  guesses w cli s =
    (Ok {| term := JStr kind;
           profile := if truthy found then found else flag cli "profile" |},
     s').
Proof.
  intros Hp Hk Hg. unfold guesses.
  rewrite (bind_ok _ _ _ _ _ (guessTerminal_darwin w s Hp)).
  set (gp := guessProfile w) in *.
  unfold detected_terminal.
  destruct Hk as [[-> ->] | [-> ->]]; unfold js_or; simpl; unfold bind;
    rewrite Hg; reflexivity.
Qed.

Lemma detection_precedes_flags_witness :
  exists s',
    flag xterm_flags "term" = JStr "xterm" /\
    flag xterm_flags "profile" = JStr "./theme.Xresources" /\
    guesses mac_terminal xterm_flags (boot mac_files) =
      (Ok {| term := JStr "terminal"; profile := JStr "Pro" |}, s').
Proof.
  eexists. split; [reflexivity|]. split; [reflexivity|].
  apply (detection_precedes_flags mac_terminal xterm_flags (boot mac_files) _
           "terminal" (JStr "Pro")).
  - reflexivity.
  - right. split; reflexivity.
  - reflexivity.
Defined.

(** Off darwin nothing is detected: the pair is the pair of flags. *)
Lemma guesses_off_darwin (w : World) (cli : SvgTermCli) (s : State) :
  platform w <> "darwin" ->
  guesses w cli s =
    (Ok {| term := flag cli "term"; profile := flag cli "profile" |}, s).
Proof.
  intros H. unfold guesses.
  rewrite (bind_ok _ _ _ _ _ (guessTerminal_elsewhere w s H)).
  simpl. unfold js_or at 1. simpl.
  destruct (truthy (flag cli "term")); [|reflexivity].
  unfold guessProfile. apply String.eqb_neq in H. rewrite H. reflexivity.
Qed.

Lemma guessTerminal_nothing (w : World) (s : State) :
  detects_nothing w ->
  exists d, guessTerminal w s = (Ok d, s) /\ truthy d = false.
Proof.
  intros H.
  destruct (String.eqb (platform w) "darwin") eqn:Hp.
  - apply String.eqb_eq in Hp. exists (detected_terminal w).
    split; [now apply guessTerminal_darwin|].
    destruct H as [H | [H1 H2]]; [contradiction|].
    unfold detected_terminal. destruct (TERM_PROGRAM w) as [tp|]; [|reflexivity].
    destruct (String.eqb tp "iTerm.app") eqn:E1.
    { apply String.eqb_eq in E1. congruence. }
    destruct (String.eqb tp "Apple_Terminal") eqn:E2; [|reflexivity].
    apply String.eqb_eq in E2. congruence.
  - apply String.eqb_neq in Hp. exists JUndefined.
    split; [now apply guessTerminal_elsewhere | reflexivity].
Qed.

(** For a falsy term [guessProfile] finds nothing and reads nothing. *)
Lemma guessProfile_falsy (w : World) (v : JsVal) (s : State) :
  truthy v = false -> guessProfile w v s = (Ok JNull, s).
Proof.
  intros H. unfold guessProfile.
  destruct (String.eqb (platform w) "darwin"); [|reflexivity].
  destruct v as [| |b|r|t|o|k]; try discriminate H; try reflexivity.
  destruct t; [reflexivity | discriminate H].
Qed.

(** When detection yields nothing, the pair is the pair of flags. *)
Lemma guesses_nothing (w : World) (cli : SvgTermCli) (s s' : State)
    (found : JsVal) :
  detects_nothing w ->
  guessProfile w (flag cli "term") s = (Ok found, s') ->
  truthy found = false ->
  guesses w cli s =
    (Ok {| term := flag cli "term"; profile := flag cli "profile" |}, s').
Proof.
  intros Hd Hg Hfound.
  destruct (guessTerminal_nothing w s Hd) as (d & Hgt & Hdf).
  unfold guesses. run Hgt. cbv zeta. unfold js_or. rewrite Hdf.
  destruct (truthy (flag cli "term")) eqn:Ht.
  - unfold bind. rewrite Hg, Hfound. reflexivity.
  - rewrite (guessProfile_falsy w _ s Ht) in Hg. inversion Hg. reflexivity.
Qed.

(** ** The theme of a pair of strings *)

Lemma indexOf_mem (l : list string) (x : string) :
  (-1 <? indexOf l x) = mem x l /\ -1 <= indexOf l x.
Proof.
  induction l as [|y l [IH1 IH2]]; simpl; [split; [reflexivity | lia]|].
  rewrite (String.eqb_sym x y).
  destruct (String.eqb y x); simpl; [split; [reflexivity | lia]|].
  rewrite <- IH1.
  destruct (indexOf l x <? 0) eqn:E.
  - apply Z.ltb_lt in E. split; [|lia].
    symmetry. apply Z.ltb_ge. lia.
  - apply Z.ltb_ge in E. split; [|lia].
    transitivity true; [apply Z.ltb_lt; lia | symmetry; apply Z.ltb_lt; lia].
Qed.

Lemma isFileProfile_string (f : string) :
  isFileProfile (JStr f) = ret (looks_like_path f).
Proof.
  unfold isFileProfile, looks_like_path, js_or.
  destruct f; simpl truthy; cbv iota; [reflexivity|].
  f_equal. apply indexOf_mem.
Qed.

Lemma getTheme_strings (w : World) (t f : string) (s : State) :
  getTheme w {| term := JStr t; profile := JStr f |} s =
    (if looks_like_path f
     then (scheme <- parseTheme w (JStr t) f ;; ret (Some scheme))
     else extractTheme w (JStr t) (JStr f)) s.
Proof.
  unfold getTheme. cbn [term profile is_null orb js_toString].
  rewrite isFileProfile_string. rewrite bind_ret. reflexivity.
Qed.

(** C1, as amended.  When both flags are strings and detection yields
    nothing (no terminal is detected, and no default profile is found for
    the term of the flag), the guessed pair is the pair of flags, and its
    theme is: for a profile whose first character is [~], [/] or [.], the
    file of that name parsed by the parser of the flagged term; for any
    other profile, the preset of that name extracted for the flagged
    term. *)
Theorem explicit_flags_resolve (w : World) (cli : SvgTermCli) (s s' : State)
    (t f : string) (found : JsVal) :
  flags cli !! "term" = Some (JStr t) ->
  flags cli !! "profile" = Some (JStr f) ->
  detects_nothing w ->
  guessProfile w (JStr t) s = (Ok found, s') ->
  truthy found = false ->
  guesses w cli s = (Ok {| term := JStr t; profile := JStr f |}, s') /\
  getTheme w {| term := JStr t; profile := JStr f |} s' =
    (if looks_like_path f
     then (scheme <- parseTheme w (JStr t) f ;; ret (Some scheme))
     else extractTheme w (JStr t) (JStr f)) s'.
Proof.
  intros Ht Hf Hd Hg Hfound. split; [|apply getTheme_strings].
  assert (Et : flag cli "term" = JStr t) by (unfold flag; now rewrite Ht).
  assert (Ef : flag cli "profile" = JStr f) by (unfold flag; now rewrite Hf).
  rewrite <- Et in Hg.
  rewrite (guesses_nothing w cli s s' found Hd Hg Hfound), Et, Ef.
  reflexivity.
Qed.

Lemma explicit_flags_resolve_witness :
  guesses linux xterm_flags (boot themed_files) =
    (Ok {| term := JStr "xterm"; profile := JStr "./theme.Xresources" |},
     boot themed_files) /\
  getTheme linux {| term := JStr "xterm"; profile := JStr "./theme.Xresources" |}
           (boot themed_files) =
    (scheme <- parseTheme linux (JStr "xterm") "./theme.Xresources" ;;
     ret (Some scheme)) (boot themed_files).
Proof.
  apply (explicit_flags_resolve linux xterm_flags (boot themed_files)
           (boot themed_files) "xterm" "./theme.Xresources" JNull).
  - reflexivity.
  - reflexivity.
  - left. simpl. discriminate.
  - reflexivity.
  - reflexivity.
Defined.

(** The same flags under Terminal on darwin: both are supplied, the
    profile names a file that exists, and yet the pair is the detected
    one; [main] parses the preset [Pro] of the container with the
    terminal parser and never opens the file. *)
Lemma explicit_flags_overridden :
  flags xterm_flags !! "term" = Some (JStr "xterm") /\
  flags xterm_flags !! "profile" = Some (JStr "./theme.Xresources") /\
  looks_like_path "./theme.Xresources" = true /\
  fst (guesses mac_terminal xterm_flags (boot themed_files)) =
    Ok {| term := JStr "terminal"; profile := JStr "Pro" |} /\
  fst (main mac_terminal xterm_flags (boot themed_files)) = Ok tt /\
  trace (snd (main mac_terminal xterm_flags (boot themed_files))) =
    [EvStdin; EvReadFile terminal_plist; EvBplist;
     EvReadFile terminal_plist; EvBplist; EvPlistBuild;
     EvParse p_terminal; EvRender; EvStdout].
Proof. repeat split; reflexivity. Qed.

(** ** Validation of the flags *)

Lemma flag_absent (cli : SvgTermCli) (name : string) :
  has_flag cli name = false -> flag cli name = JUndefined.
Proof.
  unfold has_flag, flag. destruct (flags cli !! name); [discriminate|reflexivity].
Qed.


(** A pair with a falsy member leaves [unsatisfied] non-empty. *)
Lemma unsatisfied_nonempty (guess : Guesses) :
  truthy (term guess) = false \/ truthy (profile guess) = false ->
  (0 <? Z.of_nat (length (unsatisfied guess))) = true.
Proof.
  unfold unsatisfied, guess_get, get_property. simpl.
  intros [H | H]; rewrite H; simpl.
  - destruct (negb (truthy (profile guess))); reflexivity.
  - destruct (negb (truthy (term guess))); reflexivity.
Qed.

(** C2, as amended.  When detection yields nothing (no terminal is
    detected, and no default profile is found for the term of the flag)
    and the recording has been read, a run with exactly one of [--term]
    and [--profile] fails with a usage error whatever the value of the
    flag, and [withCli] ends it with exit status 1.  It fails in the state
    that reading the recording left, or that looking for a default
    profile left: no theme was read, parsed or rendered. *)
Theorem one_flag_is_usage_error (w : World) (cli : SvgTermCli)
    (s s1 s2 : State) (recording : string) (found : JsVal) :
  detects_nothing w ->
  has_flag cli "term" <> has_flag cli "profile" ->
  getInput w cli s = (Ok recording, s1) ->
  guessProfile w (flag cli "term") s1 = (Ok found, s2) ->
  truthy found = false ->
  (exists msg s', main w cli s = (Throw (UsageError msg), s') /\
                  (s' = s1 \/ s' = s2)) /\
  fst (withCli w cli s) = Exited 1.
Proof.
  intros Hd Hone Hin Hg Hfound.
  assert (Hmain : exists msg s', main w cli s = (Throw (UsageError msg), s') /\
                                 (s' = s1 \/ s' = s2)).
  { unfold main. run Hin. unfold cliError.
    destruct (is_empty recording); [eexists _, _; split; eauto|].
    destruct (0 <? Z.of_nat (length (malformed w cli)));
      [eexists _, _; split; eauto|].
    run (guesses_nothing w cli s1 s2 found Hd Hg Hfound).
    unfold validate, cliError.
    assert (Hany : has_flag cli "term" || has_flag cli "profile" = true).
    { destruct (has_flag cli "term"), (has_flag cli "profile");
        try reflexivity; contradiction. }
    rewrite Hany, unsatisfied_nonempty.
    - eexists _, _. split; [reflexivity | now right].
    - simpl.
      destruct (has_flag cli "term") eqn:E1, (has_flag cli "profile") eqn:E2;
        try contradiction.
      + right. now rewrite (flag_absent _ _ E2).
      + left. now rewrite (flag_absent _ _ E1). }
  split; [exact Hmain|].
  destruct Hmain as (msg & sf & Hmain & _). unfold withCli. rewrite Hmain.
  reflexivity.
Qed.

Lemma one_flag_is_usage_error_witness :
  has_flag only_iterm2 "term" = true /\
  has_flag only_iterm2 "profile" = false /\
  (exists msg s', main mac_other only_iterm2 (boot mac_files) =
                    (Throw (UsageError msg), s') /\
                  (s' = read_stdin mac_files \/
                   s' = looked_for_default mac_files)) /\
  fst (withCli mac_other only_iterm2 (boot mac_files)) = Exited 1.
Proof.
  split; [reflexivity|]. split; [reflexivity|].
  apply (one_flag_is_usage_error mac_other only_iterm2 (boot mac_files)
           (read_stdin mac_files) (looked_for_default mac_files)
           (stdin mac_other) JNull).
  - right. split; discriminate.
  - simpl. discriminate.
  - reflexivity.
  - reflexivity.
  - reflexivity.
Defined.

(** The message names the member that is missing. *)
Example term_without_profile :
  main mac_other only_iterm2 (boot mac_files) =
    (Throw (UsageError
       "svg-term: --term and --profile must be used together, profile missing"),
     looked_for_default mac_files) /\
  main linux only_xterm (boot mac_files) =
    (Throw (UsageError
       "svg-term: --term and --profile must be used together, profile missing"),
     read_stdin mac_files).
Proof. split; reflexivity. Qed.

(** Under Terminal on darwin, [--term] alone is no usage error: the
    detected terminal and the default profile of its container make the
    pair, and the run renders and ends normally. *)
Lemma one_flag_accepted_on_darwin :
  has_flag only_xterm "term" = true /\
  has_flag only_xterm "profile" = false /\
  fst (main mac_terminal only_xterm (boot mac_files)) = Ok tt /\
  fst (withCli mac_terminal only_xterm (boot mac_files)) = Completed /\
  stdout (snd (main mac_terminal only_xterm (boot mac_files))) = ["<svg/>"].
Proof. repeat split; reflexivity. Qed.

(** ** The existence check *)

Lemma looks_like_path_truthy (p : string) :
  looks_like_path p = true -> truthy (JStr p) = true.
Proof. destruct p; [discriminate | reflexivity]. Qed.

Lemma unsatisfied_empty (guess : Guesses) :
  truthy (term guess) = true -> truthy (profile guess) = true ->
  unsatisfied guess = [].
Proof.
  unfold unsatisfied, guess_get, get_property. simpl.
  intros -> ->. reflexivity.
Qed.

(** When the earlier checks pass, the profile of the pair looks like a
    path and [--profile] is the string [f], [validate] makes one call:
    it asks whether [path.join(cwd, f)] exists, and throws when it does
    not.  Nothing in it looks at [f] itself as a path. *)
Lemma validate_checks_joined_path (w : World) (cli : SvgTermCli)
    (guess : Guesses) (s : State) (f p : string) :
  flags cli !! "profile" = Some (JStr f) ->
  truthy (term guess) = true ->
  profile guess = JStr p ->
  looks_like_path p = true ->
  unknown w cli = [] ->
  validate w cli guess s =
    (match files s !! path_resolve w [path_join w [cwd w; f]] with
     | Some _ => Ok tt
     | None => Throw (not_found f)
     end,
     with_trace s (EvExists (path_join w [cwd w; f]))).
Proof.
  intros Hf Ht Hp Hl Hu. unfold validate, cliError.
  rewrite unsatisfied_empty;
    [| assumption | rewrite Hp; now apply looks_like_path_truthy].
  rewrite Hu, Hp, isFileProfile_string, Hl.
  unfold has_flag, flag. rewrite Hf.
  unfold bind, ret, fs_existsSync, throw, not_found, join_cwd.
  destruct (flags cli !! "term"); simpl;
    destruct (files s !! path_resolve w [path_join w [cwd w; f]]); reflexivity.
Qed.

(** C6, as amended.  When the recording was read, [--height] and
    [--width] are well-formed, the guessed pair has a term and keeps the
    string of [--profile], [--term] is a known key, the profile looks like
    a path and nothing exists at [path.join(cwd, profile)], [main] fails
    with the usage error that names the profile.  It fails right after the
    existence test: no theme was read, parsed or rendered. *)
Theorem missing_profile_file (w : World) (cli : SvgTermCli) (s s1 s2 : State)
    (recording : string) (guess : Guesses) (f : string) :
  getInput w cli s = (Ok recording, s1) ->
  is_empty recording = false ->
  malformed w cli = [] ->
  guesses w cli s1 = (Ok guess, s2) ->
  truthy (term guess) = true ->
  profile guess = JStr f ->
  flags cli !! "profile" = Some (JStr f) ->
  unknown w cli = [] ->
  looks_like_path f = true ->
  files s2 !! path_resolve w [path_join w [cwd w; f]] = None ->
  main w cli s =
    (Throw (not_found f), with_trace s2 (EvExists (path_join w [cwd w; f]))).
Proof.
  intros Hin He Hm Hg Ht Hp Hf Hu Hl Hmiss. unfold main.
  rewrite (bind_ok _ _ _ _ _ Hin), He, Hm.
  replace (0 <? Z.of_nat (length (@nil Error))) with false by reflexivity.
  rewrite (bind_ok _ _ _ _ _ Hg).
  erewrite bind_throw; [reflexivity|].
  rewrite (validate_checks_joined_path w cli guess s2 f f Hf Ht Hp Hl Hu).
  now rewrite Hmiss.
Qed.

Lemma missing_profile_file_witness :
  mac_files !! theme_file = None /\
  main linux xterm_flags (boot mac_files) =
    (Throw (UsageError
       "svg-term: ./theme.Xresources must be readable file but was not found"),
     stopped_at_check mac_files theme_file).
Proof.
  split; [reflexivity|].
  apply (missing_profile_file linux xterm_flags (boot mac_files)
           (with_trace (boot mac_files) EvStdin)
           (with_trace (boot mac_files) EvStdin)
           (stdin linux)
           {| term := JStr "xterm"; profile := JStr "./theme.Xresources" |}
           "./theme.Xresources"); reflexivity.
Defined.

(** Under Terminal on darwin the same flags, with the same file missing,
    raise no usage error: the pair holds the default profile [Pro], which
    does not look like a path, so nothing is tested and the run renders. *)
Lemma missing_profile_file_unnoticed :
  flags xterm_flags !! "profile" = Some (JStr "./theme.Xresources") /\
  looks_like_path "./theme.Xresources" = true /\
  mac_files !! path_resolve mac_terminal
                 [path_join mac_terminal [cwd mac_terminal; "./theme.Xresources"]]
    = None /\
  mac_files !! path_resolve mac_terminal ["./theme.Xresources"] = None /\
  fst (main mac_terminal xterm_flags (boot mac_files)) = Ok tt /\
  fst (withCli mac_terminal xterm_flags (boot mac_files)) = Completed.
Proof. repeat split; reflexivity. Qed.

(** C10. The path whose existence [validate] tests is always
    [path.join(cwd, profile)], also for a profile that starts with [/] or
    [~]: it is the one call [validate] makes, and the outcome depends on
    that path alone.  Hence there is a run whose [--profile] is the
    absolute path of a file that exists and which still fails with the
    usage error for a missing file. *)
Theorem existence_check_joins_cwd :
  (forall (w : World) (cli : SvgTermCli) (guess : Guesses) (s : State)
          (f p : string),
      flags cli !! "profile" = Some (JStr f) ->
      truthy (term guess) = true ->
      profile guess = JStr p ->
      looks_like_path p = true ->
      unknown w cli = [] ->
      validate w cli guess s =
        (match files s !! path_resolve w [path_join w [cwd w; f]] with
         | Some _ => Ok tt
         | None => Throw (not_found f)
         end,
         with_trace s (EvExists (path_join w [cwd w; f])))) /\
  (exists (w : World) (cli : SvgTermCli) (s : State) (f data : string),
      is_absolute f = true /\
      flags cli !! "profile" = Some (JStr f) /\
      files s !! path_resolve w [f] = Some (File data) /\
      main w cli s =
        (Throw (not_found f),
         with_trace (with_trace s EvStdin)
                    (EvExists (path_join w [cwd w; f])))).
Proof.
  split; [exact validate_checks_joined_path|].
  exists linux, absolute_flags, (boot etc_files), "/etc/theme.Xresources",
         "*.foreground: #bbbbbb".
  repeat split; reflexivity.
Qed.

Lemma existence_check_joins_cwd_witness :
  path_join linux [cwd linux; "~/theme.Xresources"]
    = "/Users/me/casts/~/theme.Xresources" /\
  validate linux home_flags
    {| term := JStr "xterm"; profile := JStr "~/theme.Xresources" |} (boot ∅) =
    (Throw (not_found "~/theme.Xresources"),
     with_trace (boot ∅) (EvExists "/Users/me/casts/~/theme.Xresources")).
Proof.
  split; [reflexivity|].
  rewrite (proj1 existence_check_joins_cwd linux home_flags
             {| term := JStr "xterm"; profile := JStr "~/theme.Xresources" |}
             (boot ∅) "~/theme.Xresources" "~/theme.Xresources");
    reflexivity.
Defined.

(** A directory passes the test; the run then fails when it reads it. *)
Example profile_directory :
  fst (main linux directory_flags (boot mac_files)) =
    Throw (EISDIR "/Users/me/casts/themes").
Proof. reflexivity. Qed.

(** A relative profile is tested where it is later read. *)
Example relative_profile_is_read :
  fst (main linux xterm_flags (boot themed_files)) = Ok tt /\
  trace (snd (main linux xterm_flags (boot themed_files))) =
    [EvStdin; EvExists theme_file; EvReadFile theme_file; EvParse p_xterm;
     EvRender; EvStdout].
Proof. split; reflexivity. Qed.

(** ** Named presets *)

Lemma detectable (kind : string) :
  kind = "iterm2" \/ kind = "terminal" ->
  js_in (JStr kind) (keys DetectableTerminals) = true /\
  (is_str (JStr kind) "iterm2" || is_str (JStr kind) "terminal" = true).
Proof. intros [-> | ->]; split; reflexivity. Qed.

(** A preset whose lookup yields nothing gives no theme: the container is
    read, the parser is found, and [extractTheme] returns [null] without
    building or parsing anything. *)
Lemma extractTheme_no_preset (w : World) (s s1 : State) (kind : string)
    (presets name theme : JsVal) (parser : Parser) :
  platform w = "darwin" ->
  kind = "iterm2" \/ kind = "terminal" ->
  getPresets w (JStr kind) s = (Ok presets, s1) ->
  js_get w presets name s1 = (Ok theme, s1) ->
  truthy theme = false ->
  getParser w (JStr kind) s1 = (Ok parser, s1) ->
  extractTheme w (JStr kind) name s = (Ok None, s1).
Proof.
  intros Hp Hk Hpre Hget Hth Hpar. unfold extractTheme.
  destruct (detectable kind Hk) as [-> _]. rewrite Hp.
  cbn [negb]. change (String.eqb "darwin" "darwin") with true. cbn [negb].
  run Hpre. run Hget. run Hpar. rewrite Hth. reflexivity.
Qed.

(** C7, where the code departs from it.  The lookup [presets[name]] also
    finds what a dictionary inherits: for a name that no preset of the
    container has but [Object.prototype] has, such as [constructor],
    [extractTheme] takes the inherited member for the theme, builds a
    property list from it and parses that.  Whatever the packages make of
    it, the result is not [null]. *)
Theorem inherited_name_is_not_absent (w : World) (s s1 : State)
    (kind name : string) (props : list (string * JsVal)) :
  platform w = "darwin" ->
  kind = "iterm2" \/ kind = "terminal" ->
  getPresets w (JStr kind) s = (Ok (JObj props), s1) ->
  assoc name props = None ->
  mem name Object_prototype = true ->
  fst (extractTheme w (JStr kind) (JStr name) s) <> Ok None.
Proof.
  intros Hp Hk Hpre Habs Hinh. unfold extractTheme.
  destruct (detectable kind Hk) as [-> Hcase]. rewrite Hp.
  cbn [negb]. change (String.eqb "darwin" "darwin") with true. cbn [negb].
  run Hpre.
  assert (Hget : js_get w (JObj props) (JStr name) s1 = (Ok (JBuiltin name), s1)).
  { unfold js_get, get_property. cbn [js_toString]. now rewrite Habs, Hinh. }
  run Hget.
  destruct (getParser w (JStr kind) s1) as [[parser|e] s2] eqn:Hpar; run Hpar;
    [|discriminate].
  cbn [truthy negb].
  assert (Hrun : forall s3,
    fst ((xml <- call EvPlistBuild (plist_build w (JBuiltin name)) ;;
          t <- run_parser w parser xml ;; ret (Some t)) s3) <> Ok None).
  { intros s3. unfold call, run_parser, call, bind, emit, lift, ret.
    destruct (plist_build w (JBuiltin name)); [|discriminate].
    destruct (parse w parser a); discriminate. }
  destruct (is_str (JStr kind) "iterm2"); [apply Hrun|].
  destruct (is_str (JStr kind) "terminal"); [apply Hrun | discriminate].
Qed.

Lemma inherited_name_is_not_absent_witness :
  assoc "constructor" [("Solarized", a_theme)] = None /\
  fst (extractTheme mac_iterm2 (JStr "iterm2") (JStr "constructor")
         (boot mac_files)) <> Ok None.
Proof.
  split; [reflexivity|].
  apply (inherited_name_is_not_absent mac_iterm2 (boot mac_files)
           (snd (getPresets mac_iterm2 (JStr "iterm2") (boot mac_files)))
           "iterm2" "constructor" [("Solarized", a_theme)]).
  - reflexivity.
  - left. reflexivity.
  - reflexivity.
  - reflexivity.
  - reflexivity.
Defined.

(** Under iTerm2, [--profile constructor]: the container has the one
    preset [Solarized]; the run builds a property list from the inherited
    member and parses it with the iterm2 parser. *)
Example profile_constructor :
  fst (guesses mac_iterm2 constructor_flags (boot mac_files)) =
    Ok {| term := JStr "iterm2"; profile := JStr "constructor" |} /\
  trace (snd (main mac_iterm2 constructor_flags (boot mac_files))) =
    [EvStdin; EvReadFile iterm2_plist; EvBplist;
     EvReadFile iterm2_plist; EvBplist; EvPlistBuild; EvParse p_iterm2;
     EvRender; EvStdout].
Proof. split; reflexivity. Qed.

(** A name that is neither a preset nor inherited gives no theme, and the
    run goes on to render without one. *)
Example profile_unknown :
  extractTheme mac_iterm2 (JStr "iterm2") (JStr "Dracula") (boot mac_files) =
    (Ok None,
     {| files := mac_files; stdout := [];
        trace := [EvReadFile iterm2_plist; EvBplist] |}) /\
  trace (snd (main mac_iterm2 (argv [("profile", JStr "Dracula")])
                (boot mac_files))) =
    [EvStdin; EvReadFile iterm2_plist; EvBplist;
     EvReadFile iterm2_plist; EvBplist; EvRender; EvStdout].
Proof. split; reflexivity. Qed.

(** * Further properties of the program *)

(** ** Detection *)

(** X1.  [guessTerminal] never raises and never touches the state; what it
    returns is truthy exactly on darwin with one of the two names in
    [TERM_PROGRAM]. *)
Theorem guessTerminal_detects (w : World) (s : State) :
  exists v,
    guessTerminal w s = (Ok v, s) /\
    (truthy v = true <->
     platform w = "darwin" /\
     (TERM_PROGRAM w = Some "iTerm.app" \/
      TERM_PROGRAM w = Some "Apple_Terminal")).
Proof.
  destruct (String.eqb (platform w) "darwin") eqn:Hp.
  - apply String.eqb_eq in Hp. exists (detected_terminal w).
    split; [now apply guessTerminal_darwin|].
    unfold detected_terminal.
    destruct (TERM_PROGRAM w) as [tp|].
    + destruct (String.eqb tp "iTerm.app") eqn:E1.
      { apply String.eqb_eq in E1. subst. split; auto. }
      destruct (String.eqb tp "Apple_Terminal") eqn:E2.
      { apply String.eqb_eq in E2. subst. split; auto. }
      apply String.eqb_neq in E1, E2.
      split; [discriminate|]. intros [_ [H | H]]; congruence.
    + split; [discriminate|]. intros [_ [H | H]]; discriminate.
  - apply String.eqb_neq in Hp. exists JUndefined.
    split; [now apply guessTerminal_elsewhere|].
    split; [discriminate|]. intros [H _]. contradiction.
Qed.

(** X2.  For a term other than the two terminals nothing is read on any
    platform: [getConfig], [getPresets] and [guessProfile] return [null]
    in the state they were called in. *)
Theorem other_terms_read_nothing (w : World) (term : JsVal) (s : State) :
  is_str term "terminal" = false ->
  is_str term "iterm2" = false ->
  getConfig w term s = (Ok JNull, s) /\
  getPresets w term s = (Ok JNull, s) /\
  guessProfile w term s = (Ok JNull, s).
Proof.
  intros H1 H2.
  assert (Hc : getConfig w term s = (Ok JNull, s)).
  { unfold getConfig. now rewrite H1, H2. }
  split; [exact Hc|]. split.
  - unfold getPresets. run Hc. now rewrite H1, H2.
  - unfold guessProfile.
    destruct (String.eqb (platform w) "darwin"); [|reflexivity].
    cbn [negb]. run Hc. reflexivity.
Qed.

Lemma other_terms_read_nothing_witness :
  getConfig mac_terminal (JStr "xterm") (boot mac_files) = (Ok JNull, boot mac_files) /\
  getPresets mac_terminal (JStr "xterm") (boot mac_files) = (Ok JNull, boot mac_files) /\
  guessProfile mac_terminal (JStr "xterm") (boot mac_files) = (Ok JNull, boot mac_files).
Proof.
  apply (other_terms_read_nothing mac_terminal (JStr "xterm") (boot mac_files));
    reflexivity.
Defined.


Lemma getPresets_kind (w : World) (kind : string) :
  kind = "iterm2" \/ kind = "terminal" ->
  getPresets w (JStr kind) =
    (config <- getConfig w (JStr kind) ;;
     js_get w config (JStr (presets_key kind))).
Proof. intros [-> | ->]; reflexivity. Qed.



(** ** Extraction of a named preset *)

(** [getParser] neither reads nor changes the state. *)
Lemma getParser_state (w : World) (term : JsVal) (s : State) :
  getParser w term s = (fst (getParser w term s), s).
Proof.
  unfold getParser.
  repeat match goal with
         | |- context [strict_eq term ?m] =>
             destruct (strict_eq term m); [reflexivity|]
         end.
  reflexivity.
Qed.

Lemma getParser_any_state (w : World) (term : JsVal) (s s' : State) :
  fst (getParser w term s) = fst (getParser w term s').
Proof.
  unfold getParser.
  repeat match goal with
         | |- context [strict_eq term ?m] =>
             destruct (strict_eq term m); [reflexivity|]
         end.
  reflexivity.
Qed.

Lemma getParser_not_scheme (w : World) (term : JsVal) (s : State) :
  is_scheme w term = false ->
  getParser w term s =
    (Throw (PlainError ("unknown term parser: " +:+ js_toString term)), s).
Proof.
  unfold is_scheme, getParser, scheme_members. simpl.
  repeat match goal with
         | |- context [strict_eq term ?m] =>
             destruct (strict_eq term m); [discriminate|]
         end.
  reflexivity.
Qed.

(** X4.  Off darwin, and for every term that [DetectableTerminals] has no
    member for, [extractTheme] returns [null] at once: no container is
    read and no parser is looked up, whatever the name. *)
Theorem extractTheme_guards (w : World) (term name : JsVal) (s : State) :
  platform w <> "darwin" \/ js_in term (keys DetectableTerminals) = false ->
  extractTheme w term name s = (Ok None, s).
Proof.
  intros H. unfold extractTheme.
  destruct (js_in term (keys DetectableTerminals)) eqn:E; [|reflexivity].
  destruct H as [H | H]; [|discriminate].
  apply String.eqb_neq in H. now rewrite H.
Qed.

Lemma extractTheme_guards_witness :
  extractTheme linux (JStr "terminal") (JStr "Pro") (boot mac_files)
    = (Ok None, boot mac_files) /\
  extractTheme mac_terminal (JStr "xterm") (JStr "Pro") (boot mac_files)
    = (Ok None, boot mac_files).
Proof.
  split.
  - apply (extractTheme_guards linux). left. simpl. discriminate.
  - apply (extractTheme_guards mac_terminal). right. reflexivity.
Defined.

(** X5.  A container that has no presets makes [extractTheme] throw: the
    presets are [undefined], and reading a name from them is a type
    error, raised before the parser is looked up.  It is not answered
    with [null]. *)
Theorem extractTheme_without_presets (w : World) (s s1 : State)
    (kind : string) (name : JsVal) (props : list (string * JsVal)) :
  platform w = "darwin" ->
  kind = "iterm2" \/ kind = "terminal" ->
  getConfig w (JStr kind) s = (Ok (JObj props), s1) ->
  assoc (presets_key kind) props = None ->
  exists msg, extractTheme w (JStr kind) name s = (Throw (TypeError msg), s1).
Proof.
  intros Hp Hk Hc Hnone. unfold extractTheme.
  destruct (detectable kind Hk) as [-> _]. rewrite Hp.
  cbn [negb]. change (String.eqb "darwin" "darwin") with true. cbn [negb].
  assert (Hpre : getPresets w (JStr kind) s = (Ok JUndefined, s1)).
  { rewrite (getPresets_kind w kind Hk). run Hc.
    unfold js_get, get_property. cbn [js_toString]. rewrite Hnone.
    destruct Hk as [-> | ->]; reflexivity. }
  run Hpre. eexists. reflexivity.
Qed.

Lemma extractTheme_without_presets_witness :
  exists msg,
    extractTheme mac_iterm2 (JStr "iterm2") (JStr "Solarized")
      (boot {[ iterm2_plist := File "terminal" ]}) =
    (Throw (TypeError msg),
     {| files := {[ iterm2_plist := File "terminal" ]}; stdout := [];
        trace := [EvReadFile iterm2_plist; EvBplist] |}).
Proof.
  apply (extractTheme_without_presets mac_iterm2
           (boot {[ iterm2_plist := File "terminal" ]}) _ "iterm2"
           (JStr "Solarized")
           [("Default Window Settings", JStr "Pro");
            ("Window Settings", JObj [("Basic", a_theme); ("Pro", a_theme)])]).
  - reflexivity.
  - left. reflexivity.
  - reflexivity.
  - reflexivity.
Defined.

(** X6.  A preset that the container has is rebuilt as a property list and
    handed to the parser of the terminal; the theme is what the parser
    returns, and an exception of the parser escapes. *)
Theorem extractTheme_found (w : World) (s s1 : State) (kind name xml : string)
    (presets : list (string * JsVal)) (theme : JsVal) (parser : Parser) :
  platform w = "darwin" ->
  kind = "iterm2" \/ kind = "terminal" ->
  getPresets w (JStr kind) s = (Ok (JObj presets), s1) ->
  assoc name presets = Some theme ->
  truthy theme = true ->
  fst (getParser w (JStr kind) s1) = Ok parser ->
  plist_build w theme = Ok xml ->
  extractTheme w (JStr kind) (JStr name) s =
    (match parse w parser xml with
     | Ok scheme => Ok (Some scheme)
     | Throw e => Throw e
     end,
     with_trace (with_trace s1 EvPlistBuild) (EvParse parser)).
Proof.
  intros Hp Hk Hpre Hsome Htheme Hpar Hxml. unfold extractTheme.
  destruct (detectable kind Hk) as [-> Hcase]. rewrite Hp.
  cbn [negb]. change (String.eqb "darwin" "darwin") with true. cbn [negb].
  run Hpre.
  assert (Hget : js_get w (JObj presets) (JStr name) s1 = (Ok theme, s1)).
  { unfold js_get, get_property. cbn [js_toString]. now rewrite Hsome. }
  run Hget.
  assert (Hp' : getParser w (JStr kind) s1 = (Ok parser, s1)).
  { rewrite getParser_state, Hpar. reflexivity. }
  run Hp'. rewrite Htheme. cbn [negb].
  assert (Hrun :
    (xml0 <- call EvPlistBuild (plist_build w theme) ;;
     t <- run_parser w parser xml0 ;; ret (Some t)) s1 =
    (match parse w parser xml with
     | Ok scheme => Ok (Some scheme)
     | Throw e => Throw e
     end,
     with_trace (with_trace s1 EvPlistBuild) (EvParse parser))).
  { unfold call, run_parser, call, bind, emit, lift, ret, with_trace.
    rewrite Hxml. simpl. destruct (parse w parser xml); reflexivity. }
  destruct (is_str (JStr kind) "iterm2"); [exact Hrun|].
  destruct (is_str (JStr kind) "terminal"); [exact Hrun | discriminate].
Qed.

Lemma extractTheme_found_witness :
  extractTheme mac_iterm2 (JStr "iterm2") (JStr "Solarized") (boot mac_files) =
    (Ok (Some sample_scheme),
     {| files := mac_files; stdout := [];
        trace := [EvReadFile iterm2_plist; EvBplist; EvPlistBuild;
                  EvParse p_iterm2] |}).
Proof.
  rewrite (extractTheme_found mac_iterm2 (boot mac_files)
             {| files := mac_files; stdout := [];
                trace := [EvReadFile iterm2_plist; EvBplist] |}
             "iterm2" "Solarized" "<plist><dict/></plist>"
             [("Solarized", a_theme)] a_theme p_iterm2);
    reflexivity || (left; reflexivity).
Defined.

(** ** The theme of a file *)

(** X7.  The parser is looked up before the file is opened: for a term that
    has no parser, a profile that looks like a path is never read, and
    [getTheme] throws the error of [getParser] in the state it was
    called in. *)
Theorem term_without_parser_reads_no_file (w : World) (t f : string)
    (s : State) :
  looks_like_path f = true ->
  is_scheme w (JStr t) = false ->
  getTheme w {| term := JStr t; profile := JStr f |} s =
    (Throw (PlainError ("unknown term parser: " +:+ t)), s).
Proof.
  intros Hl Hs. rewrite getTheme_strings, Hl. unfold parseTheme, bind.
  now rewrite (getParser_not_scheme w (JStr t) s Hs).
Qed.

Lemma term_without_parser_reads_no_file_witness :
  getTheme linux {| term := JStr "zsh"; profile := JStr "./theme.Xresources" |}
    (boot themed_files) =
    (Throw (PlainError "unknown term parser: zsh"), boot themed_files).
Proof.
  apply (term_without_parser_reads_no_file linux "zsh" "./theme.Xresources"
           (boot themed_files)); reflexivity.
Defined.

(** X8.  For a term that has a parser and a profile that looks like a path,
    [getTheme] reads the profile as the process resolves it, not joined
    to anything: a file is parsed by the parser of the term, and an
    exception of the parser escapes; a directory and a missing file make
    the read throw, and then no parser runs. *)
Theorem file_theme (w : World) (t f : string) (parser : Parser) (s : State) :
  looks_like_path f = true ->
  fst (getParser w (JStr t) s) = Ok parser ->
  getTheme w {| term := JStr t; profile := JStr f |} s =
    match files s !! path_resolve w [f] with
    | Some (File data) =>
        (match parse w parser data with
         | Ok scheme => Ok (Some scheme)
         | Throw e => Throw e
         end,
         with_trace (with_trace s (EvReadFile (path_resolve w [f])))
                    (EvParse parser))
    | Some Directory =>
        (Throw (EISDIR (path_resolve w [f])),
         with_trace s (EvReadFile (path_resolve w [f])))
    | None =>
        (Throw (ENOENT (path_resolve w [f])),
         with_trace s (EvReadFile (path_resolve w [f])))
    end.
Proof.
  intros Hl Hp. rewrite getTheme_strings, Hl. unfold parseTheme.
  assert (Hp' : getParser w (JStr t) s = (Ok parser, s)).
  { rewrite getParser_state, Hp. reflexivity. }
  unfold bind. rewrite Hp'.
  unfold read_file, run_parser, call, bind, emit, lift, ret, with_trace.
  cbv zeta. cbn [files stdout trace].
  destruct (files s !! path_resolve w [f]) as [[data|]|]; try reflexivity.
  destruct (parse w parser data); reflexivity.
Qed.

Lemma file_theme_witness :
  getTheme linux {| term := JStr "xterm"; profile := JStr "./theme.Xresources" |}
    (boot themed_files) =
    (Ok (Some sample_scheme),
     {| files := themed_files; stdout := [];
        trace := [EvReadFile theme_file; EvParse p_xterm] |}) /\
  getTheme linux {| term := JStr "xterm"; profile := JStr "./themes" |}
    (boot themed_files) =
    (Throw (EISDIR "/Users/me/casts/themes"),
     {| files := themed_files; stdout := [];
        trace := [EvReadFile "/Users/me/casts/themes"] |}).
Proof.
  split.
  - rewrite (file_theme linux "xterm" "./theme.Xresources" p_xterm
               (boot themed_files)); reflexivity.
  - rewrite (file_theme linux "xterm" "./themes" p_xterm
               (boot themed_files)); reflexivity.
Defined.

(** ** Profiles that are not strings *)

Lemma isFileProfile_not_string (v : JsVal) :
  truthy v = true ->
  (forall t, v <> JStr t) ->
  isFileProfile v = throw (TypeError "p.charAt is not a function").
Proof.
  intros Ht Hn. unfold isFileProfile, js_or. rewrite Ht.
  destruct v; try reflexivity; try discriminate Ht.
  now destruct (Hn s).
Qed.

(** X9.  Only a string has a first character.  When the profile of the pair
    is truthy and no string (a bare [--profile] is [true], a numeric one
    is a number), both places that test the first character throw a type
    error: [validate] once its two earlier checks pass, and [getTheme].
    Neither reports a usage error and neither reads anything. *)
Theorem profile_without_charAt (w : World) (cli : SvgTermCli)
    (tm v : JsVal) (s : State) :
  truthy tm = true ->
  truthy v = true ->
  (forall t, v <> JStr t) ->
  getTheme w {| term := tm; profile := v |} s =
    (Throw (TypeError "p.charAt is not a function"), s) /\
  (unknown w cli = [] ->
   validate w cli {| term := tm; profile := v |} s =
     (Throw (TypeError "p.charAt is not a function"), s)).
Proof.
  intros Htm Hv Hn. split.
  - unfold getTheme. cbn [term profile].
    replace (is_null tm) with false by (destruct tm; try reflexivity; discriminate).
    replace (is_null v) with false by (destruct v; try reflexivity; discriminate).
    cbn [orb]. rewrite (isFileProfile_not_string v Hv Hn). reflexivity.
  - intros Hu. unfold validate, cliError.
    rewrite unsatisfied_empty by assumption.
    rewrite Hu. cbn [profile]. rewrite (isFileProfile_not_string v Hv Hn).
    destruct (has_flag cli "term" || has_flag cli "profile"); reflexivity.
Qed.

Lemma profile_without_charAt_witness :
  getTheme linux {| term := JStr "xterm"; profile := JBool true |} (boot ∅) =
    (Throw (TypeError "p.charAt is not a function"), boot ∅) /\
  validate linux (argv [("term", JStr "xterm"); ("profile", JBool true)])
    {| term := JStr "xterm"; profile := JBool true |} (boot ∅) =
    (Throw (TypeError "p.charAt is not a function"), boot ∅).
Proof.
  destruct (profile_without_charAt linux
              (argv [("term", JStr "xterm"); ("profile", JBool true)])
              (JStr "xterm") (JBool true) (boot ∅)) as [H1 H2];
    try reflexivity; try discriminate.
  split; [exact H1 | apply H2; reflexivity].
Defined.

(** ** The pair and its checks *)

Lemma guessTerminal_total (w : World) (s : State) :
  exists v, guessTerminal w s = (Ok v, s).
Proof.
  destruct (String.eqb (platform w) "darwin") eqn:Hp.
  - apply String.eqb_eq in Hp. eexists. now apply guessTerminal_darwin.
  - apply String.eqb_neq in Hp. eexists. now apply guessTerminal_elsewhere.
Qed.

Lemma js_or_null (a b : JsVal) : js_or a b = JNull -> b = JNull.
Proof.
  unfold js_or. destruct (truthy a) eqn:E; [|auto].
  intros ->. discriminate E.
Qed.

(** X10.  A member of the guessed pair is [null] only when the flag of that
    name is [null]: a [null] from detection always gives way to the flag.
    For flags that come from a command line, which are never [null], the
    guard of line 248 therefore never fires in [main]. *)
Theorem guessed_null_is_flag (w : World) (cli : SvgTermCli) (s s' : State)
    (guess : Guesses) :
  guesses w cli s = (Ok guess, s') ->
  (term guess = JNull -> flag cli "term" = JNull) /\
  (profile guess = JNull -> flag cli "profile" = JNull).
Proof.
  destruct (guessTerminal_total w s) as [v Hv].
  unfold guesses. run Hv. cbv zeta.
  destruct (truthy (js_or v (flag cli "term"))).
  - unfold bind.
    destruct (guessProfile w (js_or v (flag cli "term")) s) as [[gp|e] s2];
      intros H; inversion H; subst; cbn [term profile].
    split; apply js_or_null.
  - unfold bind, ret. intros H; inversion H; subst; cbn [term profile].
    split; [apply js_or_null | congruence].
Qed.

Lemma guessed_null_is_flag_witness :
  fst (guesses mac_other no_flags (boot mac_files)) =
    Ok {| term := JUndefined; profile := JUndefined |} /\
  (term {| term := JUndefined; profile := JUndefined |} = JNull ->
   flag no_flags "term" = JNull) /\
  (profile {| term := JUndefined; profile := JUndefined |} = JNull ->
   flag no_flags "profile" = JNull).
Proof.
  split; [reflexivity|].
  apply (guessed_null_is_flag mac_other no_flags (boot mac_files)
           (boot mac_files)).
  reflexivity.
Defined.

Lemma unknown_without_term (w : World) (cli : SvgTermCli) :
  has_flag cli "term" = false -> unknown w cli = [].
Proof. intros H. unfold unknown, ensure. simpl. now rewrite H. Qed.

(** X11.  A [--term] that is no key of [TermSchemes] is a usage error that
    lists the keys, also when detection has put another term into the
    pair; it is raised before the profile is looked at, without a call. *)
Theorem unknown_term_is_usage_error (w : World) (cli : SvgTermCli)
    (guess : Guesses) (s : State) :
  has_flag cli "term" = true ->
  js_in (flag cli "term") (keys (TermSchemes w)) = false ->
  truthy (term guess) = true ->
  truthy (profile guess) = true ->
  validate w cli guess s =
    (Throw (UsageError ("svg-term: " +:+ unknown_term w (flag cli "term"))), s).
Proof.
  intros Hflag Hin Ht Hp. unfold validate, cliError.
  rewrite unsatisfied_empty by assumption.
  assert (Hu : unknown w cli = [TypeError (unknown_term w (flag cli "term"))]).
  { unfold unknown, ensure. simpl. now rewrite Hflag, Hin. }
  rewrite Hu, Hflag. reflexivity.
Qed.

Lemma unknown_term_is_usage_error_witness :
  validate mac_terminal
    (argv [("term", JStr "zsh"); ("profile", JStr "Basic")])
    {| term := JStr "terminal"; profile := JStr "Pro" |} (boot mac_files) =
    (Throw (UsageError
       ("svg-term: term expected to be one of iterm2, konsole, remmina, "
        +:+ "terminal, terminator, termite, tilda, xcfe, xresources, xterm, "
        +:+ "received " +:+ dquote +:+ "zsh" +:+ dquote)),
     boot mac_files).
Proof.
  apply (unknown_term_is_usage_error mac_terminal
           (argv [("term", JStr "zsh"); ("profile", JStr "Basic")])
           {| term := JStr "terminal"; profile := JStr "Pro" |}
           (boot mac_files)); reflexivity.
Defined.

(** X12.  The existence test is made only for a pair whose profile looks like
    a path and only when [--profile] was given: otherwise [validate],
    once its two checks pass, returns without a call.  A default profile
    that looks like a path is therefore never tested. *)
Theorem validate_without_test (w : World) (cli : SvgTermCli)
    (guess : Guesses) (p : string) (s : State) :
  unsatisfied guess = [] ->
  unknown w cli = [] ->
  profile guess = JStr p ->
  looks_like_path p = false \/ has_flag cli "profile" = false ->
  validate w cli guess s = (Ok tt, s).
Proof.
  intros Hs Hu Hp Hor. unfold validate, cliError.
  rewrite Hs, Hu, Hp, isFileProfile_string.
  destruct Hor as [-> | ->];
    destruct (has_flag cli "term"), (looks_like_path p);
    try destruct (has_flag cli "profile"); reflexivity.
Qed.

Lemma validate_without_test_witness :
  validate mac_terminal no_flags
    {| term := JStr "terminal"; profile := JStr "./Pro" |} (boot mac_files) =
    (Ok tt, boot mac_files).
Proof.
  apply (validate_without_test mac_terminal no_flags
           {| term := JStr "terminal"; profile := JStr "./Pro" |} "./Pro"
           (boot mac_files)); try reflexivity.
  right. reflexivity.
Defined.

(** ** The recording and the size flags *)

(** X13.  An empty recording, from standard input or from the download, is a
    usage error; nothing else has been called by then and the process
    ends with status 1. *)
Theorem empty_recording_is_usage_error (w : World) (cli : SvgTermCli)
    (s s1 : State) :
  getInput w cli s = (Ok EmptyString, s1) ->
  main w cli s =
    (Throw (UsageError "svg-term: either stdin or --cast are required"), s1) /\
  fst (withCli w cli s) = Exited 1.
Proof.
  intros Hin.
  assert (Hmain : main w cli s =
    (Throw (UsageError "svg-term: either stdin or --cast are required"), s1)).
  { unfold main. now run Hin. }
  split; [exact Hmain|]. unfold withCli. now rewrite Hmain.
Qed.

Lemma empty_recording_is_usage_error_witness :
  main nothing_piped no_flags (boot ∅) =
    (Throw (UsageError "svg-term: either stdin or --cast are required"),
     read_stdin ∅) /\
  fst (withCli nothing_piped no_flags (boot ∅)) = Exited 1.
Proof.
  apply (empty_recording_is_usage_error nothing_piped no_flags (boot ∅)
           (read_stdin ∅)).
  reflexivity.
Defined.



Lemma malformed_cases (w : World) (cli : SvgTermCli) :
  malformed w cli =
    ((if has_flag cli "height"
      then match parseInt10 w (js_toString (flag cli "height")) with
           | Some _ => []
           | None => [not_a_number "height" (flag cli "height")]
           end
      else []) ++
     (if has_flag cli "width"
      then match parseInt10 w (js_toString (flag cli "width")) with
           | Some _ => []
           | None => [not_a_number "width" (flag cli "width")]
           end
      else []))%list.
Proof.
  unfold malformed, ensure, not_a_number. simpl.
  destruct (has_flag cli "height"), (has_flag cli "width"); simpl;
    repeat match goal with
           | |- context [parseInt10 w ?x] => destruct (parseInt10 w x)
           end; reflexivity.
Qed.

(** X15.  A [--height] or [--width] that is given and does not parse as a
    number is reported by name, together with its value, in a usage
    error; [main] raises it right after reading the recording, before
    it detects or reads anything. *)
Theorem malformed_size_is_usage_error (w : World) (cli : SvgTermCli)
    (s s1 : State) (recording name : string) :
  getInput w cli s = (Ok recording, s1) ->
  is_empty recording = false ->
  name = "height" \/ name = "width" ->
  has_flag cli name = true ->
  parseInt10 w (js_toString (flag cli name)) = None ->
  In (not_a_number name (flag cli name)) (malformed w cli) /\
  main w cli s =
    (Throw (UsageError ("svg-term: " +:+
                        String.concat nl (map message (malformed w cli)))),
     s1).
Proof.
  intros Hin He Hname Hflag Hnan.
  assert (Hmem : In (not_a_number name (flag cli name)) (malformed w cli)).
  { rewrite malformed_cases. apply in_or_app.
    destruct Hname as [-> | ->]; [left | right]; rewrite Hflag, Hnan;
      now left. }
  split; [exact Hmem|].
  unfold main. run Hin. rewrite He. unfold cliError.
  destruct (malformed w cli) as [|m l]; [contradiction|]. reflexivity.
Qed.

Lemma malformed_size_is_usage_error_witness :
  In (not_a_number "width" (JStr "wide")) (malformed linux size_flags) /\
  main linux size_flags (boot ∅) =
    (Throw (UsageError
       ("svg-term: width expected to be number, received "
        +:+ dquote +:+ "wide" +:+ dquote)),
     read_stdin ∅).
Proof.
  apply (malformed_size_is_usage_error linux size_flags (boot ∅)
           (read_stdin ∅) (stdin linux) "width"); try reflexivity.
  right. reflexivity.
Defined.

(** ** Runs without a theme *)

(** X16.  With neither [--term] nor [--profile] and nothing detected, a run
    reads no container and no theme: after the recording is read and the
    size flags are accepted, [main] is the call of the renderer without
    a theme, followed by the output. *)
Theorem run_without_theme (w : World) (cli : SvgTermCli) (s s1 : State)
    (recording : string) :
  detects_nothing w ->
  has_flag cli "term" = false ->
  has_flag cli "profile" = false ->
  getInput w cli s = (Ok recording, s1) ->
  is_empty recording = false ->
  malformed w cli = [] ->
  main w cli s =
    (svg <- call EvRender
              (render w recording
                 {| opt_height := toNumber w (flag cli "height");
                    opt_theme := None;
                    opt_width := toNumber w (flag cli "width");
                    opt_window := truthy (flag cli "frame") |}) ;;
     output w cli svg) s1.
Proof.
  intros Hd Ht Hp Hin He Hm.
  pose proof (flag_absent cli "term" Ht) as Et.
  pose proof (flag_absent cli "profile" Hp) as Ep.
  assert (Hgp : guessProfile w (flag cli "term") s1 = (Ok JNull, s1)).
  { rewrite Et. now apply guessProfile_falsy. }
  pose proof (guesses_nothing w cli s1 s1 JNull Hd Hgp eq_refl) as Hg.
  rewrite Et, Ep in Hg.
  assert (Hv : validate w cli {| term := JUndefined; profile := JUndefined |} s1
               = (Ok tt, s1)).
  { unfold validate. rewrite Ht, Hp, (unknown_without_term w cli Ht).
    reflexivity. }
  assert (Hth : getTheme w {| term := JUndefined; profile := JUndefined |} s1
                = (Ok None, s1)).
  { reflexivity. }
  unfold main. run Hin. rewrite He, Hm.
  change (0 <? Z.of_nat (length (@nil Error))) with false. cbv iota.
  run Hg. run Hv. run Hth. reflexivity.
Qed.

Lemma run_without_theme_witness :
  main linux no_flags (boot ∅) =
    (Ok tt,
     {| files := ∅; stdout := ["<svg/>"];
        trace := [EvStdin; EvRender; EvStdout] |}).
Proof.
  rewrite (run_without_theme linux no_flags (boot ∅) (read_stdin ∅)
             (stdin linux)); try reflexivity.
  left. simpl. discriminate.
Defined.

(** ** What a run leaves behind *)

Lemma Quiet_ret {A} (a : A) : Quiet (ret a).
Proof. intros s. split; reflexivity. Qed.

Lemma Quiet_throw {A} (e : Error) : Quiet (@throw A e).
Proof. intros s. split; reflexivity. Qed.

Lemma Quiet_lift {A} (r : Res A) : Quiet (lift r).
Proof. intros s. split; reflexivity. Qed.

Lemma Quiet_emit (e : Event) : Quiet (emit e).
Proof. intros s. split; reflexivity. Qed.

Lemma Quiet_bind {A B} (m : M A) (k : A -> M B) :
  Quiet m -> (forall a, Quiet (k a)) -> Quiet (bind m k).
Proof.
  intros Hm Hk s. unfold bind. specialize (Hm s).
  destruct (m s) as [[a|e] s1]; simpl in *; [|assumption].
  destruct Hm as [Hf Ho]. destruct (Hk a s1) as [Hf' Ho']. split; congruence.
Qed.

Lemma Quiet_if {A} (b : bool) (m1 m2 : M A) :
  Quiet m1 -> Quiet m2 -> Quiet (if b then m1 else m2).
Proof. destruct b; auto. Qed.

Lemma Quiet_call {A} (e : Event) (r : Res A) : Quiet (call e r).
Proof.
  apply Quiet_bind; [apply Quiet_emit | intros; apply Quiet_lift].
Qed.

Lemma Quiet_fs_existsSync w path : Quiet (fs_existsSync w path).
Proof. intros s. split; reflexivity. Qed.

Lemma Quiet_read_file w segs : Quiet (read_file w segs).
Proof. intros s. split; reflexivity. Qed.

Lemma Quiet_js_get w o k : Quiet (js_get w o k).
Proof. destruct o; simpl; first [apply Quiet_ret | apply Quiet_throw]. Qed.

Create HintDb quiet.
#[local] Hint Resolve Quiet_ret Quiet_throw Quiet_lift Quiet_emit Quiet_call
  Quiet_fs_existsSync Quiet_read_file Quiet_js_get : quiet.

Ltac quiet :=
  repeat first
    [ progress auto with quiet
    | apply Quiet_bind; [|intros]
    | apply Quiet_if
    | match goal with
      | |- Quiet (match ?x with _ => _ end) => destruct x
      end ].

Lemma Quiet_getConfig w term : Quiet (getConfig w term).
Proof. unfold getConfig. quiet. Qed.

Lemma Quiet_getPresets w term : Quiet (getPresets w term).
Proof. unfold getPresets. pose proof (Quiet_getConfig w term). quiet. Qed.

Lemma Quiet_guessProfile w term : Quiet (guessProfile w term).
Proof. unfold guessProfile. pose proof (Quiet_getConfig w term). quiet. Qed.

Lemma Quiet_guessTerminal w : Quiet (guessTerminal w).
Proof. unfold guessTerminal. quiet. Qed.

Lemma Quiet_getInput w cli : Quiet (getInput w cli).
Proof. unfold getInput. quiet. Qed.

Lemma Quiet_getParser w term : Quiet (getParser w term).
Proof. unfold getParser. quiet. Qed.

Lemma Quiet_parseTheme w term input : Quiet (parseTheme w term input).
Proof.
  unfold parseTheme, run_parser. pose proof (Quiet_getParser w term). quiet.
Qed.

Lemma Quiet_extractTheme w term name : Quiet (extractTheme w term name).
Proof.
  unfold extractTheme, run_parser.
  pose proof (Quiet_getPresets w term). pose proof (Quiet_getParser w term).
  quiet.
Qed.

Lemma Quiet_isFileProfile profile : Quiet (isFileProfile profile).
Proof. unfold isFileProfile. quiet. Qed.

Lemma Quiet_getTheme w guess : Quiet (getTheme w guess).
Proof.
  unfold getTheme.
  pose proof (Quiet_isFileProfile (profile guess)).
  pose proof (Quiet_extractTheme w (term guess) (profile guess)).
  pose proof (Quiet_parseTheme w (term guess) (js_toString (profile guess))).
  quiet.
Qed.

Lemma Quiet_guesses w cli : Quiet (guesses w cli).
Proof.
  unfold guesses. pose proof (Quiet_guessTerminal w).
  pose proof (fun t => Quiet_guessProfile w t).
  quiet.
Qed.

Lemma Quiet_validate w cli guess : Quiet (validate w cli guess).
Proof.
  unfold validate, join_cwd.
  pose proof (Quiet_isFileProfile (profile guess)).
  quiet.
Qed.

Lemma run_effect_same (w : World) (cli : SvgTermCli) (s s1 s' : State)
    (r : Res unit) :
  files s1 = files s -> stdout s1 = stdout s ->
  run_effect w cli s1 r s' -> run_effect w cli s r s'.
Proof.
  intros Hf Ho. unfold run_effect. now rewrite Hf, Ho.
Qed.

Lemma run_effect_bind {A} (w : World) (cli : SvgTermCli) (m : M A)
    (k : A -> M unit) :
  Quiet m ->
  (forall a s, run_effect w cli s (fst (k a s)) (snd (k a s))) ->
  forall s, run_effect w cli s (fst (bind m k s)) (snd (bind m k s)).
Proof.
  intros Hm Hk s. unfold bind. destruct (Hm s) as [Hf Ho].
  destruct (m s) as [[a|e] s1]; simpl in *.
  - apply (run_effect_same w cli s s1); auto.
  - split; assumption.
Qed.

Lemma run_effect_output (w : World) (cli : SvgTermCli) (svg : string)
    (s : State) :
  run_effect w cli s (fst (output w cli svg s)) (snd (output w cli svg s)).
Proof.
  unfold output, run_effect.
  destruct (has_flag cli "out") eqn:Hout.
  - destruct (flag cli "out") eqn:Hflag; simpl; try (split; reflexivity).
    split; [reflexivity|]. exists s0, svg. split; reflexivity.
  - simpl. split; [reflexivity|]. exists svg. reflexivity.
Qed.

(** A run of [main] leaves behind what [run_effect] allows. *)
Lemma main_leaves (w : World) (cli : SvgTermCli) (s : State) :
  run_effect w cli s (fst (main w cli s)) (snd (main w cli s)).
Proof.
  revert s. unfold main.
  apply run_effect_bind; [apply Quiet_getInput|]. intros recording s.
  destruct (is_empty recording); [split; reflexivity|].
  destruct (0 <? Z.of_nat (length (malformed w cli))); [split; reflexivity|].
  revert s.
  apply run_effect_bind; [apply Quiet_guesses|]. intros guess.
  apply run_effect_bind; [apply Quiet_validate|]. intros _.
  apply run_effect_bind; [apply Quiet_getTheme|]. intros theme.
  apply run_effect_bind; [apply Quiet_call|]. intros svg s.
  apply run_effect_output.
Qed.

(** X17.  A run that fails leaves no part of a picture behind.  When [main]
    throws a usage error the process ends with status 1, the files are
    as before, and the standard output has gained the help text and the
    message, nothing else; when [main] throws anything else the error is
    rethrown and neither the files nor the standard output have
    changed. *)
Theorem failed_run_report (w : World) (cli : SvgTermCli) (s : State) :
  match fst (withCli w cli s) with
  | Completed => fst (main w cli s) = Ok tt
  | Exited code =>
      code = 1 /\
      files (snd (withCli w cli s)) = files s /\
      exists msg,
        fst (main w cli s) = Throw (UsageError msg) /\
        stdout (snd (withCli w cli s)) =
          (stdout s ++ [help cli; nl +:+ " " +:+ msg])%list
  | Uncaught e =>
      fst (main w cli s) = Throw e /\
      (forall msg, e <> UsageError msg) /\
      files (snd (withCli w cli s)) = files s /\
      stdout (snd (withCli w cli s)) = stdout s
  end.
Proof.
  pose proof (main_leaves w cli s) as H. unfold withCli.
  destruct (main w cli s) as [[[]|e] s1]; cbn [fst snd] in *; [reflexivity|].
  destruct H as [Hf Ho].
  destruct e as [msg|msg|msg|path|path|package msg]; cbn [fst snd];
    try (repeat split; [discriminate | assumption | assumption]).
  split; [reflexivity|]. split; [exact Hf|].
  exists msg. split; [reflexivity|].
  unfold stdout_write, bind. cbn [fst snd stdout]. rewrite Ho.
  now rewrite <- app_assoc.
Qed.


